(** * RAG knowledge assistant: chunker and vector store

    A shallow embedding of [src/document_processor.py] (the chunking
    pipeline of [SimpleDocumentProcessor]) and of [src/vector_db.py] (the
    store [MilvusVectorDB] with its cosine-similarity search), followed by
    the properties of the specification that concern them.

    Python values are modelled as the code has them: a [str] is a list of
    code points, an [int] is a [Z], a [float] is an IEEE-754 value
    ([spec_float], binary64 for Python floats and binary32 for NumPy
    [float32] arrays), a chunk is a [dict] with string keys, and an
    exception is a constructor of [exn] carried by the result type [res]. *)

From Stdlib Require Import ZArith QArith List String Ascii Lia.
From Corelib Require Import SpecFloat.
From stdpp Require Import gmap strings list sorting.

Open Scope Z_scope.

(** ** Python primitives *)

Module Py.

(** A Python [str]: a sequence of Unicode code points. *)
Definition str := list N.

(** Literals of the source, written as Rocq strings of one-byte
    characters. *)
Definition lit (s : string) : str :=
  map N_of_ascii (list_ascii_of_string s).

Definition len {A} (l : list A) : Z := Z.of_nat (length l).

(** Exceptions the modelled code can raise. *)
Inductive exn :=
| ValueError_count_mismatch (nchunks nembeddings : nat)
| ValueError_range_step
| ValueError_inhomogeneous
| ValueError_not_aligned
| KeyError (key : string)
| IndexError
| TypeError
| OSError.

Inductive res (A : Type) :=
| OK (a : A)
| Raise (e : exn).
Arguments OK {A} a.
Arguments Raise {A} e.

#[global] Instance res_ret : MRet res := fun A a => OK a.
#[global] Instance res_bind : MBind res := fun A B f m =>
  match m with
  | OK a => f a
  | Raise e => Raise e
  end.

(** Values held in the dictionaries of the program. *)
Inductive pyval :=
| VNone
| VInt (n : Z)
| VStr (s : str)
| VFloat (x : spec_float).

#[global] Instance pyval_inhabited : Inhabited pyval := populate VNone.

(** [d[key]]: raises [KeyError] when the key is missing. *)
Definition getitem (d : gmap string pyval) (key : string) : res pyval :=
  match d !! key with
  | Some v => OK v
  | None => Raise (KeyError key)
  end.

(** [d.get(key, dflt)] *)
Definition get (d : gmap string pyval) (key : string) (dflt : pyval) : pyval :=
  default dflt (d !! key).

(** [Py_UNICODE_ISSPACE]: the characters that [str.strip()],
    [str.split()] and the regular-expression class [\s] treat as
    whitespace. *)
Definition isspace (c : N) : bool :=
  (((9 <=? c) && (c <=? 13)) || ((28 <=? c) && (c <=? 32))
   || (c =? 133) || (c =? 160) || (c =? 5760)
   || ((8192 <=? c) && (c <=? 8202)) || (c =? 8232) || (c =? 8233)
   || (c =? 8239) || (c =? 8287) || (c =? 12288))%N.

Fixpoint lstrip (s : str) : str :=
  match s with
  | [] => []
  | c :: rest => if isspace c then lstrip rest else s
  end.

Definition rstrip (s : str) : str := reverse (lstrip (reverse s)).

(** [s.strip()] *)
Definition strip (s : str) : str := rstrip (lstrip s).

(** Truth value of a string: non-empty. *)
Definition truthy (s : str) : bool :=
  match s with
  | [] => false
  | _ :: _ => true
  end.

(** [text.split('\n\n')]: [acc] holds, reversed, the characters of the
    piece being read. *)
Fixpoint split_blank_lines (acc : str) (text : str) : list str :=
  match text with
  | [] => [reverse acc]
  | c :: rest =>
      match rest with
      | c' :: rest' =>
          if ((c =? 10) && (c' =? 10))%N
          then reverse acc :: split_blank_lines [] rest'
          else split_blank_lines (c :: acc) rest
      | [] => [reverse (c :: acc)]
      end
  end.

Definition is_terminal (c : N) : bool :=
  ((c =? 46) || (c =? 33) || (c =? 63))%N.

(** [re.split(r'(?<=[.!?])\s+', text)]: the text is cut at every maximal
    run of whitespace that directly follows one of [. ! ?]; the run is
    dropped. [skipping] is set while such a run is being consumed and
    [after_terminal] while the last character read is one of [. ! ?]. *)
Fixpoint re_split_sentences (skipping after_terminal : bool) (acc : str)
    (text : str) : list str :=
  match text with
  | [] => [reverse acc]
  | c :: rest =>
      if isspace c then
        if skipping then re_split_sentences true false acc rest
        else if after_terminal
             then reverse acc :: re_split_sentences true false [] rest
             else re_split_sentences false false (c :: acc) rest
      else re_split_sentences false (is_terminal c) (c :: acc) rest
  end.

(** [text.split()]: the maximal runs of non-whitespace characters. *)
Fixpoint split_whitespace (cur : str) (text : str) : list str :=
  match text with
  | [] => if truthy cur then [reverse cur] else []
  | c :: rest =>
      if isspace c
      then (if truthy cur then reverse cur :: split_whitespace [] rest
            else split_whitespace [] rest)
      else split_whitespace (c :: cur) rest
  end.

(** A slice bound as Python normalises it for a sequence of length [n]:
    a negative bound counts from the end, and the result is clamped to
    [0..n]. *)
Definition slice_index (n i : Z) : Z :=
  if i <? 0 then Z.max 0 (i + n) else Z.min i n.

(** [l[lo:hi]] *)
Definition slice {A} (l : list A) (lo hi : Z) : list A :=
  let a := slice_index (len l) lo in
  let b := slice_index (len l) hi in
  take (Z.to_nat (b - a)) (drop (Z.to_nat a) l).

(** [range(0, stop, step)] for [stop >= 0]: a zero step raises
    [ValueError], a negative step gives the empty range, and a positive
    step gives the [(stop + step - 1) // step] multiples of [step] below
    [stop]. *)
Definition range0 (stop step : Z) : res (list Z) :=
  if step =? 0 then Raise ValueError_range_step
  else if step <? 0 then OK []
  else OK (map (fun k => Z.of_nat k * step)
               (seq 0 (Z.to_nat ((stop + step - 1) / step)))).

Fixpoint digits (d : Decimal.uint) : str :=
  match d with
  | Decimal.Nil => []
  | Decimal.D0 d => 48%N :: digits d
  | Decimal.D1 d => 49%N :: digits d
  | Decimal.D2 d => 50%N :: digits d
  | Decimal.D3 d => 51%N :: digits d
  | Decimal.D4 d => 52%N :: digits d
  | Decimal.D5 d => 53%N :: digits d
  | Decimal.D6 d => 54%N :: digits d
  | Decimal.D7 d => 55%N :: digits d
  | Decimal.D8 d => 56%N :: digits d
  | Decimal.D9 d => 57%N :: digits d
  end.

(** [f"{n}"] for a non-negative [int]. *)
Definition format_nat (n : nat) : str := digits (Nat.to_uint n).

(** [s.split('/')] *)
Fixpoint split_slash (acc : str) (s : str) : list str :=
  match s with
  | [] => [reverse acc]
  | c :: rest =>
      if (c =? 47)%N then reverse acc :: split_slash [] rest
      else split_slash (c :: acc) rest
  end.

(** [s.rfind('.')], [None] for -1. *)
Fixpoint rfind_dot (i : nat) (s : str) : option nat :=
  match s with
  | [] => None
  | c :: rest =>
      match rfind_dot (S i) rest with
      | Some j => Some j
      | None => if (c =? 46)%N then Some i else None
      end
  end.

(** [Path(source).name] for a POSIX path: the last component that is
    neither empty nor a single dot. *)
Definition path_name (source : str) : str :=
  List.last
    (filter (fun c => bool_decide (c <> []) && bool_decide (c <> [46%N]))
            (split_slash [] source))
    [].

(** [Path(source).stem]: the name without its last suffix; a dot in
    first or last position starts no suffix. *)
Definition path_stem (source : str) : str :=
  let name := path_name source in
  match rfind_dot 0 name with
  | Some i =>
      if (0 <? i)%nat && (S i <? length name)%nat then take i name else name
  | None => name
  end.

End Py.

Import Py.

(** ** The chunker: [src/document_processor.py] *)

Module DocumentProcessor.

(** [SimpleDocumentProcessor]: the two attributes set by [__init__]. *)
Record SimpleDocumentProcessor := {
  chunk_size : Z;
  overlap : Z
}.

(** [_create_chunk]: the stored text is stripped, the counts are taken on
    the text as received. *)
Definition _create_chunk (text : str) (chunk_id : nat) (source : str)
    : gmap string pyval :=
  <["text" := VStr (strip text)]>
  (<["chunk_id" :=
       VStr (path_stem source ++ lit "_chunk_" ++ format_nat chunk_id)]>
  (<["source" := VStr source]>
  (<["chunk_number" := VInt (Z.of_nat chunk_id)]>
  (<["char_count" := VInt (len text)]>
  (<["word_count" := VInt (len (split_whitespace [] text))]>
  (<["char_start" := VInt 0]>
  (<["char_end" := VInt (len text)]> ∅))))))).

Section Chunking.
Variable self : SimpleDocumentProcessor.
Variable source : str.

(** The loop of [_force_split_text] over the window starts [i]; the
    state is [(chunks, chunk_id)]. *)
Fixpoint force_loop (text : str) (starts : list Z)
    (chunks : list (gmap string pyval)) (chunk_id : nat)
    : list (gmap string pyval) :=
  match starts with
  | [] => chunks
  | i :: starts' =>
      let chunk_text := slice text i (i + chunk_size self) in
      if truthy (strip chunk_text)
      then force_loop text starts'
             (chunks ++ [_create_chunk chunk_text chunk_id source])
             (S chunk_id)
      else force_loop text starts' chunks chunk_id
  end.

Definition _force_split_text (text : str) (start_id : nat)
    : res (list (gmap string pyval)) :=
  starts ← range0 (len text) (chunk_size self - overlap self);
  OK (force_loop text starts [] start_id).

(** State of the two accumulating loops: the chunks emitted so far, the
    running chunk and the next chunk number. *)
Record loop_state := {
  chunks : list (gmap string pyval);
  current_chunk : str;
  chunk_id : nat
}.

(** [if current_chunk: chunks.append(...); chunk_id += 1] *)
Definition flush (st : loop_state) : loop_state :=
  if truthy (current_chunk st)
  then {| chunks := chunks st ++
                    [_create_chunk (current_chunk st) (chunk_id st) source];
          current_chunk := current_chunk st;
          chunk_id := S (chunk_id st) |}
  else st.

(** One iteration of the loop of [_split_long_text]. *)
Definition sentence_step (st : loop_state) (sentence : str)
    : res loop_state :=
  let sentence := strip sentence in
  if negb (truthy sentence) then OK st
  else if len (current_chunk st) + len sentence <? chunk_size self then
    OK {| chunks := chunks st;
          current_chunk :=
            if truthy (current_chunk st)
            then current_chunk st ++ lit " " ++ sentence
            else sentence;
          chunk_id := chunk_id st |}
  else
    let st := flush st in
    if chunk_size self <? len sentence then
      force_chunks ← _force_split_text sentence (chunk_id st);
      OK {| chunks := chunks st ++ force_chunks;
            current_chunk := [];
            chunk_id := (chunk_id st + length force_chunks)%nat |}
    else
      OK {| chunks := chunks st;
            current_chunk := sentence;
            chunk_id := chunk_id st |}.

Fixpoint sentence_loop (sentences : list str) (st : loop_state)
    : res loop_state :=
  match sentences with
  | [] => OK st
  | sentence :: rest =>
      st' ← sentence_step st sentence;
      sentence_loop rest st'
  end.

Definition _split_long_text (text : str) (start_id : nat)
    : res (list (gmap string pyval)) :=
  let sentences := re_split_sentences false false [] text in
  st ← sentence_loop sentences
         {| chunks := []; current_chunk := []; chunk_id := start_id |};
  OK (chunks (flush st)).

(** One iteration of the loop of [smart_chunk_text]. *)
Definition paragraph_step (st : loop_state) (para : str)
    : res loop_state :=
  let para := strip para in
  if negb (truthy para) then OK st
  else if len (current_chunk st) + len para <? chunk_size self then
    OK {| chunks := chunks st;
          current_chunk :=
            if truthy (current_chunk st)
            then current_chunk st ++ [10%N; 10%N] ++ para
            else para;
          chunk_id := chunk_id st |}
  else
    let st := flush st in
    if chunk_size self <? len para then
      sub_chunks ← _split_long_text para (chunk_id st);
      OK {| chunks := chunks st ++ sub_chunks;
            current_chunk := [];
            chunk_id := (chunk_id st + length sub_chunks)%nat |}
    else
      OK {| chunks := chunks st;
            current_chunk := para;
            chunk_id := chunk_id st |}.

Fixpoint paragraph_loop (paragraphs : list str) (st : loop_state)
    : res loop_state :=
  match paragraphs with
  | [] => OK st
  | para :: rest =>
      st' ← paragraph_step st para;
      paragraph_loop rest st'
  end.

Definition smart_chunk_text (text : str)
    : res (list (gmap string pyval)) :=
  let paragraphs := split_blank_lines [] text in
  st ← paragraph_loop paragraphs
         {| chunks := []; current_chunk := []; chunk_id := 0 |};
  OK (chunks (flush st)).

End Chunking.

End DocumentProcessor.

(** ** NumPy on [float32] arrays *)

Module Np.

Abbreviation float := spec_float.

Definition is_nan (x : float) : bool :=
  match x with
  | S754_nan => true
  | _ => false
  end.

(** Conversion of a Python float (binary64) to [float32], rounding to
    nearest even. The conversion back ([float(x)], [tolist]) is exact: a
    float is used for its value, which widening keeps, so it is the
    identity here and comparisons are made on values. *)
Definition f32_of (x : float) : float :=
  match x with
  | S754_finite s m e => binary_round 24 128 s m e
  | _ => x
  end.

(** The value of a float: its class (-1 for minus infinity, 0 for a finite
    number, 1 for plus infinity, 2 for NaN) and, for a finite number, the
    rational it stands for. *)
Definition class (x : float) : Z :=
  match x with
  | S754_infinity true => -1
  | S754_infinity false => 1
  | S754_nan => 2
  | _ => 0
  end.

Definition value (x : float) : Q :=
  match x with
  | S754_finite s m e =>
      let q := (inject_Z (Zpos m) * Qpower 2 e)%Q in
      if s then Qopp q else q
  | _ => 0%Q
  end.

(** [x < y], [x <= y] and [x == y] on floats: false when an operand is
    NaN. *)
Definition float_lt (x y : float) : bool :=
  negb (is_nan x) && negb (is_nan y)
  && ((class x <? class y)
      || ((class x =? class y) && negb (Qle_bool (value y) (value x)))).

Definition float_le (x y : float) : bool :=
  negb (is_nan x) && negb (is_nan y)
  && ((class x <? class y)
      || ((class x =? class y) && Qle_bool (value x) (value y))).


Definition zero : float := S754_zero false.
Definition add : float -> float -> float := SFadd 24 128.
Definition mul : float -> float -> float := SFmul 24 128.
Definition div : float -> float -> float := SFdiv 24 128.
Definition sqrt : float -> float := SFsqrt 24 128.

(** An embedding held by the store: a row of a [float32] array, or a
    list of Python floats read back from a snapshot. *)
Inductive vector :=
| ndarray (xs : list float)
| pylist (xs : list float).

Definition values (v : vector) : list float :=
  match v with
  | ndarray xs => xs
  | pylist xs => xs
  end.

(** Dimensionality of a vector. *)
Definition dim (v : vector) : nat := length (values v).

(** [emb.tolist() if isinstance(emb, np.ndarray) else emb] *)
Definition tolist (v : vector) : vector :=
  match v with
  | ndarray xs => pylist xs
  | pylist xs => v
  end.

Definition as_float32 (v : vector) : list float :=
  match v with
  | ndarray xs => xs
  | pylist xs => map f32_of xs
  end.

(** [np.array(rows, dtype=np.float32)] for a list of vectors: the rows
    must have one length, otherwise NumPy raises [ValueError]. *)
Definition array2 (rows : list vector) : res (list (list float)) :=
  match rows with
  | [] => OK []
  | r :: rest =>
      if forallb (fun r' => (dim r' =? dim r)%nat) rest
      then OK (map as_float32 rows)
      else Raise ValueError_inhomogeneous
  end.

(** [np.add.reduce]: the reduction starts from the first element; the
    reduction of an empty row is 0. The order of the additions, which
    NumPy leaves to the implementation, is taken left to right. *)
Definition add_reduce (l : list float) : float :=
  match l with
  | [] => zero
  | x :: rest => fold_left add rest x
  end.

(** [np.dot] of two vectors of one length, accumulated from 0, left to
    right. *)
Definition dot (u v : list float) : float :=
  fold_left add (zip_with mul u v) zero.

(** [np.linalg.norm(v)]: [sqrt(dot(v, v))]. *)
Definition norm (v : list float) : float := sqrt (dot v v).

(** [np.linalg.norm(rows, axis=1, keepdims=True)], for one row. *)
Definition row_norm (r : list float) : float :=
  sqrt (add_reduce (map (fun x => mul x x) r)).

(** [np.dot(rows, q)] of a matrix and a vector: the row length must be
    the length of [q]. *)
Definition matvec (rows : list (list float)) (q : list float)
    : res (list float) :=
  if forallb (fun r => (length r =? length q)%nat) rows
  then OK (map (fun r => dot r q) rows)
  else Raise ValueError_not_aligned.

(** [a[i]] for an index in range. *)
Definition item (a : list float) (i : nat) : float :=
  default S754_nan (a !! i).

(** The order of NumPy's sorts on floats: [a < b], with NaN after
    everything else. *)
Definition sort_lt (a b : float) : bool :=
  float_lt a b || (is_nan b && negb (is_nan a)).

Fixpoint insert_index (a : list float) (i : nat) (l : list nat) : list nat :=
  match l with
  | [] => [i]
  | j :: l' =>
      if sort_lt (item a j) (item a i) then j :: insert_index a i l'
      else i :: l
  end.

(** [np.argsort(a)]: the indices of [a] in ascending order of value.
    Equal values keep their index order, as the insertion sort that
    NumPy runs on short arrays leaves them and as every stable sort
    does. *)
Definition argsort (a : list float) : list nat :=
  foldr (insert_index a) [] (seq 0 (length a)).

End Np.

Import Np.

(** ** The vector store: [src/vector_db.py] *)

Module VectorDB.

(** The attributes of a [MilvusVectorDB] instance. *)
Record MilvusVectorDB := {
  storage_path : str;
  chunks : list (gmap string pyval);
  embeddings : list vector;
  metadata : list (gmap string pyval)
}.

(** Content of the file at [storage_path]: a pickled snapshot of the
    three lists, or bytes that [pickle.load] rejects. *)
Inductive file :=
| Pickled (cs : list (gmap string pyval)) (es : list vector)
    (ms : list (gmap string pyval))
| Unreadable.

(** The store together with the file system it persists to; [disk] is
    [None] when no file exists at [storage_path]. *)
Record world := {
  db : MilvusVectorDB;
  disk : option file
}.

(** What the methods print. *)
Inductive msg :=
| MsgInitialized
| MsgStored (n total : nat)
| MsgInsertFailed (e : exn)
| MsgNoDocuments
| MsgFound (n : nat)
| MsgSearchFailed (e : exn)
| MsgSaved
| MsgSaveFailed
| MsgLoaded (n : nat)
| MsgStartEmpty
| MsgLoadFailed
| MsgCleared.

(** How a method call ends: it returns a value or an exception reaches
    the caller; in both cases [w] is the state it leaves and [out] what
    it printed. *)
Inductive outcome (A : Type) :=
| Returned (ret : A) (w : world) (out : list msg)
| Raised (e : exn) (w : world) (out : list msg).
Arguments Returned {A} ret w out.
Arguments Raised {A} e w out.

Definition state_after {A} (o : outcome A) : world :=
  match o with
  | Returned _ w _ => w
  | Raised _ w _ => w
  end.

Definition with_lists (self : MilvusVectorDB)
    (cs : list (gmap string pyval)) (es : list vector)
    (ms : list (gmap string pyval)) : MilvusVectorDB :=
  {| storage_path := storage_path self;
     chunks := cs; embeddings := es; metadata := ms |}.

(** [save_to_disk]: [write_ok] tells whether the file system lets the
    directory be made and the file be written; a failure is caught and
    printed. *)
Definition save_to_disk (write_ok : bool) (w : world) : world * list msg :=
  if write_ok then
    ({| db := db w;
        disk := Some (Pickled (chunks (db w))
                              (map tolist (embeddings (db w)))
                              (metadata (db w))) |},
     [MsgSaved])
  else (w, [MsgSaveFailed]).

(** [load_from_disk] *)
Definition load_from_disk (w : world) : world * list msg :=
  match disk w with
  | Some (Pickled cs es ms) =>
      ({| db := with_lists (db w) cs es ms; disk := disk w |},
       [MsgLoaded (length cs)])
  | Some Unreadable =>
      ({| db := with_lists (db w) [] [] []; disk := disk w |},
       [MsgLoadFailed])
  | None => (w, [MsgStartEmpty])
  end.

(** [MilvusVectorDB(storage_path)] on a given file system. *)
Definition __init__ (path : str) (fs : option file) : world * list msg :=
  let self := {| storage_path := path;
                 chunks := []; embeddings := []; metadata := [] |} in
  let '(w, out) := load_from_disk {| db := self; disk := fs |} in
  (w, out ++ [MsgInitialized]).

(** The metadata record that [insert_documents] derives from a chunk. *)
Definition metadata_of (chunk : gmap string pyval)
    : res (gmap string pyval) :=
  chunk_id ← getitem chunk "chunk_id";
  source ← getitem chunk "source";
  OK (<["chunk_id" := chunk_id]>
      (<["source" := source]>
      (<["char_start" := get chunk "char_start" (VInt 0)]>
      (<["char_end" := get chunk "char_end" (VInt 0)]> ∅)))).

Fixpoint metadata_list (cs : list (gmap string pyval))
    : res (list (gmap string pyval)) :=
  match cs with
  | [] => OK []
  | chunk :: rest =>
      m ← metadata_of chunk;
      ms ← metadata_list rest;
      OK (m :: ms)
  end.

(** The [try] block of [insert_documents]: the state it reaches and
    either what it printed or the exception that left it. *)
Definition insert_try (write_ok : bool) (w : world)
    (new_chunks : list (gmap string pyval))
    (new_embeddings : list (list float)) : world * res (list msg) :=
  match array2 (map pylist new_embeddings) with
  | Raise e => (w, Raise e)
  | OK embeddings_array =>
      let self1 :=
        with_lists (db w) (chunks (db w) ++ new_chunks)
          (embeddings (db w) ++ map ndarray embeddings_array)
          (metadata (db w)) in
      let w1 := {| db := self1; disk := disk w |} in
      match metadata_list new_chunks with
      | Raise e => (w1, Raise e)
      | OK ms =>
          let self2 :=
            with_lists self1 (chunks self1) (embeddings self1)
              (metadata self1 ++ ms) in
          let '(w2, out) :=
            save_to_disk write_ok {| db := self2; disk := disk w |} in
          (w2, OK (out ++ [MsgStored (length new_chunks)
                                     (length (chunks (db w2)))]))
      end
  end.

(** [insert_documents]: the count check raises to the caller; whatever
    the [try] block raises is caught and printed. The method has no
    [return] statement: it returns [None]. *)
Definition insert_documents (write_ok : bool) (w : world)
    (new_chunks : list (gmap string pyval))
    (new_embeddings : list (list float)) : outcome pyval :=
  if negb (length new_chunks =? length new_embeddings)%nat then
    Raised (ValueError_count_mismatch (length new_chunks)
                                      (length new_embeddings)) w []
  else
    match insert_try write_ok w new_chunks new_embeddings with
    | (w', OK out) => Returned VNone w' out
    | (w', Raise e) => Returned VNone w' [MsgInsertFailed e]
    end.

(** One entry of the list that [search_similar] returns. *)
Record SearchResult := {
  text : pyval;
  source : pyval;
  score : float;
  chunk_id : pyval;
  result_metadata : gmap string pyval
}.

(** [l[idx]] on a Python list. *)
Definition list_item {A} (l : list A) (idx : nat) : res A :=
  match l !! idx with
  | Some x => OK x
  | None => Raise IndexError
  end.

(** The dictionary appended for index [idx]. *)
Definition make_result (self : MilvusVectorDB) (idx : nat)
    (similarity_score : float) : res SearchResult :=
  chunk ← list_item (chunks self) idx;
  text ← getitem chunk "text";
  source ← getitem chunk "source";
  chunk_id ← getitem chunk "chunk_id";
  m ← list_item (metadata self) idx;
  OK {| text := text; source := source; score := similarity_score;
        chunk_id := chunk_id; result_metadata := m |}.

(** The loop over [top_indices]: an entry is kept when
    [similarity_score >= similarity_threshold]. *)
Fixpoint result_loop (self : MilvusVectorDB) (similarities : list float)
    (similarity_threshold : float) (top_indices : list nat)
    (results : list SearchResult) : res (list SearchResult) :=
  match top_indices with
  | [] => OK results
  | idx :: rest =>
      let similarity_score := item similarities idx in
      if float_le similarity_threshold similarity_score then
        r ← make_result self idx similarity_score;
        result_loop self similarities similarity_threshold rest
          (results ++ [r])
      else
        result_loop self similarities similarity_threshold rest results
  end.

(** The cosine similarity of every stored vector with the query. *)
Definition cosine_similarities (self : MilvusVectorDB)
    (query_embedding : list float) : res (list float) :=
  let query_vector := map f32_of query_embedding in
  stored_embeddings ← array2 (embeddings self);
  let query_norm :=
    map (fun x => div x (norm query_vector)) query_vector in
  let stored_norms :=
    map (fun r => map (fun x => div x (row_norm r)) r) stored_embeddings in
  matvec stored_norms query_norm.

(** [np.argsort(similarities)[::-1][:top_k]] *)
Definition top_indices (similarities : list float) (top_k : Z) : list nat :=
  slice (reverse (argsort similarities)) 0 top_k.

(** The report on the first three results calls [Path] on their
    sources, which raises [TypeError] unless the source is a string. *)
Fixpoint report (results : list SearchResult) : res unit :=
  match results with
  | [] => OK tt
  | r :: rest =>
      match source r with
      | VStr _ => report rest
      | _ => Raise TypeError
      end
  end.

(** The [try] block of [search_similar]. *)
Definition search_try (self : MilvusVectorDB) (query_embedding : list float)
    (top_k : Z) (similarity_threshold : float) : res (list SearchResult) :=
  similarities ← cosine_similarities self query_embedding;
  results ← result_loop self similarities similarity_threshold
              (top_indices similarities top_k) [];
  _ ← report (slice results 0 3);
  OK results.

(** [search_similar]: an empty store and any exception of the [try]
    block give the empty list. *)
Definition search_similar (w : world) (query_embedding : list float)
    (top_k : Z) (similarity_threshold : float)
    : outcome (list SearchResult) :=
  match embeddings (db w) with
  | [] => Returned [] w [MsgNoDocuments]
  | _ :: _ =>
      match search_try (db w) query_embedding top_k similarity_threshold with
      | OK results => Returned results w [MsgFound (length results)]
      | Raise e => Returned [] w [MsgSearchFailed e]
      end
  end.

(** The dictionary returned by [get_status]. *)
Record status := {
  total_chunks : Z;
  total_embeddings : Z;
  sources : list pyval;
  status_storage_path : str
}.

Fixpoint source_list (cs : list (gmap string pyval)) : res (list pyval) :=
  match cs with
  | [] => OK []
  | chunk :: rest =>
      s ← getitem chunk "source";
      ss ← source_list rest;
      OK (s :: ss)
  end.

#[global] Instance float_eq_dec : EqDecision spec_float.
Proof. solve_decision. Defined.
#[global] Instance pyval_eq_dec : EqDecision pyval.
Proof. solve_decision. Defined.

(** [get_status]: [sources] lists each source once (Python leaves the
    order of [list(set(...))] unspecified; it is the order of first
    occurrence here). *)
Definition get_status (w : world) : outcome status :=
  match source_list (chunks (db w)) with
  | OK ss =>
      Returned {| total_chunks := len (chunks (db w));
                  total_embeddings := len (embeddings (db w));
                  sources := remove_dups ss;
                  status_storage_path := storage_path (db w) |} w []
  | Raise e => Raised e w []
  end.

(** [clear_database]: [unlink_ok] tells whether the file system lets the
    snapshot be removed; [Path.unlink] raises otherwise. *)
Definition clear_database (unlink_ok : bool) (w : world) : outcome pyval :=
  let self := with_lists (db w) [] [] [] in
  match disk w with
  | Some _ =>
      if unlink_ok
      then Returned VNone {| db := self; disk := None |} [MsgCleared]
      else Raised OSError {| db := self; disk := disk w |} []
  | None => Returned VNone {| db := self; disk := None |} [MsgCleared]
  end.

(** *** Sequences of calls *)

Inductive call :=
| Insert (write_ok : bool) (new_chunks : list (gmap string pyval))
    (new_embeddings : list (list float))
| Clear (unlink_ok : bool)
| Search (query_embedding : list float) (top_k : Z)
    (similarity_threshold : float)
| Status.

(** The state a call leaves. *)
Definition step (w : world) (c : call) : world :=
  match c with
  | Insert write_ok cs es => state_after (insert_documents write_ok w cs es)
  | Clear unlink_ok => state_after (clear_database unlink_ok w)
  | Search q k t => state_after (search_similar w q k t)
  | Status => state_after (get_status w)
  end.

Definition run (w : world) (calls : list call) : world :=
  fold_left step calls w.

Definition has_failure (out : list msg) : bool :=
  existsb (fun m => match m with MsgInsertFailed _ => true | _ => false end)
          out.

(** An insertion succeeds when it returns after its [try] block ran to
    the end; a clear succeeds when it returns. *)
Definition successful (w : world) (c : call) : bool :=
  match c with
  | Insert write_ok cs es =>
      match insert_documents write_ok w cs es with
      | Returned _ _ out => negb (has_failure out)
      | Raised _ _ _ => false
      end
  | Clear unlink_ok =>
      match clear_database unlink_ok w with
      | Returned _ _ _ => true
      | Raised _ _ _ => false
      end
  | Search _ _ _ => true
  | Status => true
  end.

Fixpoint all_successful (w : world) (calls : list call) : bool :=
  match calls with
  | [] => true
  | c :: rest => successful w c && all_successful (step w c) rest
  end.

(** The three lists describe the same entries position by position. *)
Definition parallel (self : MilvusVectorDB) : Prop :=
  length (chunks self) = length (embeddings self)
  /\ length (embeddings self) = length (metadata self).

End VectorDB.

(** * Vocabulary of the properties *)

Section ChunkerVocabulary.
Import DocumentProcessor.

(** The [chunk_number] fields of a list of chunks are [start], [start+1],
    ... in order. *)
Definition numbered (start : nat) (cs : list (gmap string pyval)) : Prop :=
  map (fun c : gmap string pyval => c !! "chunk_number") cs
  = map (fun i => Some (VInt (Z.of_nat i))) (seq start (length cs)).

(** The invariant of the accumulating loops: the chunks emitted so far are
    numbered from [start] and [chunk_id] is the next free number. *)
Definition well_numbered (start : nat) (st : loop_state) : Prop :=
  numbered start (chunks st)
  /\ chunk_id st = (start + length (chunks st))%nat.

(** Every chunk of [cs] has a [char_count] of at most [n]. *)
Definition bounded (n : Z) (cs : list (gmap string pyval)) : Prop :=
  Forall (fun c : gmap string pyval =>
            exists k, c !! "char_count" = Some (VInt k) /\ k <= n) cs.

(** Invariant of an accumulating loop whose running chunk stays within
    [n] characters. *)
Definition within (n : Z) (st : loop_state) : Prop :=
  bounded n (chunks st) /\ len (current_chunk st) <= n.

End ChunkerVocabulary.

Section StoreVocabulary.
Import VectorDB.

(** Two vectors of a batch never differ in length. *)
Definition uniform (es : list (list float)) : Prop :=
  forall u v, u ∈ es -> v ∈ es -> length u = length v.

(** A chunk carries the two keys that the metadata record reads with
    [chunk[...]]. *)
Definition has_keys (chunk : gmap string pyval) : Prop :=
  is_Some (chunk !! "chunk_id") /\ is_Some (chunk !! "source").

(** The state and the output of an insertion whose [try] block runs to
    its end. *)
Definition inserted (write_ok : bool) (w : world)
    (cs : list (gmap string pyval)) (es : list (list float))
    (ms : list (gmap string pyval)) : world :=
  let self :=
    with_lists (db w) (chunks (db w) ++ cs)
      (embeddings (db w) ++ map (fun e => ndarray (map f32_of e)) es)
      (metadata (db w) ++ ms) in
  {| db := self;
     disk := if write_ok
             then Some (Pickled (chunks self) (map tolist (embeddings self))
                                (metadata self))
             else disk w |}.

Definition inserted_output (write_ok : bool) (w : world)
    (cs : list (gmap string pyval)) : list msg :=
  [if write_ok then MsgSaved else MsgSaveFailed;
   MsgStored (length cs) (length (chunks (db w)) + length cs)].

(** The order of the values of two floats, NaN last: by class, then by
    rational value. It is the order that [sort_lt] decides. *)
Definition key_lt (x y : float) : Prop :=
  class x < class y \/ (class x = class y /\ (value x < value y)%Q).


(** The indices of [idxs] whose similarity passes the threshold test, in
    the order of [idxs]. *)
Definition kept (a : list float) (thr : float) (idxs : list nat) : list nat :=
  List.filter (fun i => float_le thr (item a i)) idxs.

(** Result [r] is the entry built for position [i] of the store. *)
Definition built (self : MilvusVectorDB) (a : list float)
    (r : SearchResult) (i : nat) : Prop :=
  make_result self i (item a i) = OK r.


Definition is_zero (x : float) : bool :=
  match x with
  | S754_zero _ => true
  | _ => false
  end.

Definition all_zero (v : list float) : Prop :=
  Forall (fun x => is_zero x = true) v.

Definition all_nan (v : list float) : Prop :=
  Forall (fun x => x = S754_nan) v.

End StoreVocabulary.

(** ** Example data *)

(** [float(n)] for an integer [n], and the float [0.1]. *)
Definition py_float (n : Z) : float := binary_normalize 53 1024 n 0 false.

Definition tenth : float := SFdiv 53 1024 (py_float 1) (py_float 10).

(** A chunk with the keys that the store reads. *)
Definition example_chunk (name : string) : gmap string pyval :=
<["text" := VStr (lit name)]>
(<["chunk_id" := VStr (lit "notes_chunk_" ++ lit name)]>
(<["source" := VStr (lit "notes.txt")]> ∅)).

(** A store created where no snapshot file exists. *)
Definition empty_store : VectorDB.world :=
fst (VectorDB.__init__ (lit "data/vector_storage.pkl") None).

(** The empty store after one chunk with a vector of dimension 2 was
    inserted. *)
Definition store_dim2 : VectorDB.world :=
VectorDB.state_after
  (VectorDB.insert_documents true empty_store [example_chunk "a"]
     [[py_float 1; py_float 0]]).

(** Three entries, the first and the third with the vector of the query
    [[1, 0]], the second orthogonal to it. *)
Definition store_three : VectorDB.world :=
VectorDB.state_after
  (VectorDB.insert_documents true empty_store
     [example_chunk "a"; example_chunk "b"; example_chunk "c"]
     [[py_float 1; py_float 0]; [py_float 0; py_float 1];
      [py_float 1; py_float 0]]).


(** A zero vector followed by the vector of the query [[1, 0]]. *)
Definition store_zero : VectorDB.world :=
VectorDB.state_after
  (VectorDB.insert_documents true empty_store
     [example_chunk "z"; example_chunk "a"]
     [[py_float 0; py_float 0]; [py_float 1; py_float 0]]).

(** A processor with a small chunk size, and three inputs: two short
    paragraphs, a sentence without terminal punctuation that is longer
    than the chunk size, and a text whose chunks come from all three
    levels. *)
Definition small_processor : DocumentProcessor.SimpleDocumentProcessor :=
{| DocumentProcessor.chunk_size := 10; DocumentProcessor.overlap := 2 |}.

Definition two_paragraphs : str := lit "aaaa" ++ [10%N; 10%N] ++ lit "bbbbb".

Definition long_sentence : str := lit "AAAAAAAAA BBBBBBBBBB".

Definition mixed_text : str :=
lit "One two. Three four five six seven. Eight!"
++ [10%N; 10%N] ++ lit "x" ++ [10%N; 10%N] ++ lit "y".

(** ** Text cleaning and the file entry points: [src/document_processor.py] *)

Module TextPipeline.

Section Cleaning.
(** [Py_UNICODE_ISALNUM], the table of Unicode letters and digits behind
    the class [\w]; it is not part of the repository. *)
Variable isalnum : N -> bool.

(** What [re.sub(r'\n\s*\n', '\n\n', text)] writes for a run of
    whitespace that began with a newline: [seen] tells whether the run
    holds a second newline, [ws] is, reversed, the whitespace read since
    the last newline. *)
Definition write_run (run : option (bool * str)) : str :=
  match run with
  | None => []
  | Some (seen, ws) =>
      (if seen : bool then [10%N; 10%N] else [10%N]) ++ reverse ws
  end.

(** [re.sub(r'\n\s*\n', '\n\n', text)]: from a newline up to the last
    newline of the whitespace that follows it, everything is replaced by
    two newlines. *)
Fixpoint sub_blank_lines (run : option (bool * str)) (text : str) : str :=
  match text with
  | [] => write_run run
  | c :: rest =>
      match run with
      | None =>
          if (c =? 10)%N then sub_blank_lines (Some (false, [])) rest
          else c :: sub_blank_lines None rest
      | Some (seen, ws) =>
          if (c =? 10)%N then sub_blank_lines (Some (true, [])) rest
          else if isspace c then sub_blank_lines (Some (seen, c :: ws)) rest
          else write_run run ++ c :: sub_blank_lines None rest
      end
  end.

Definition is_blank (c : N) : bool := ((c =? 32) || (c =? 9))%N.

(** [re.sub(r'[ \t]+', ' ', text)] *)
Fixpoint sub_spaces (in_run : bool) (text : str) : str :=
  match text with
  | [] => []
  | c :: rest =>
      if is_blank c
      then (if in_run then sub_spaces true rest
            else 32%N :: sub_spaces true rest)
      else c :: sub_spaces false rest
  end.

(** [re.sub(r'\n[ \t]+', '\n', text)] *)
Fixpoint sub_indent (after_newline : bool) (text : str) : str :=
  match text with
  | [] => []
  | c :: rest =>
      if after_newline && is_blank c then sub_indent true rest
      else c :: sub_indent (c =? 10)%N rest
  end.

(** The punctuation that the last expression of [clean_text] keeps. *)
Definition kept_punctuation : list N :=
  [46; 44; 33; 63; 59; 58; 45; 40; 41; 91; 93; 123; 125; 34; 39; 47; 64;
   35; 36; 37; 94; 38; 42; 43; 61; 60; 62; 124; 92; 96; 126]%N.

Definition allowed (c : N) : bool :=
  isalnum c || (c =? 95)%N || isspace c
  || existsb (fun p => (c =? p)%N) kept_punctuation.

(** [re.sub(r'[^\w\s...]', ' ', text)] *)
Definition sub_artifacts (text : str) : str :=
  map (fun c => if allowed c then c else 32%N) text.

Definition clean_text (text : str) : str :=
  let text := sub_blank_lines None text in
  let text := sub_spaces false text in
  let text := sub_indent false text in
  let text := sub_artifacts text in
  strip text.

(** [process_text_file]: [content] is what reading the file gives, the
    text or the exception of [open] or [read]. *)
Definition process_text_file (self : DocumentProcessor.SimpleDocumentProcessor)
    (content : res str) (file_path : str)
    : res (list (gmap string pyval)) :=
  text ← content;
  DocumentProcessor.smart_chunk_text self file_path (clean_text text).

(** The loop of [process_pdf] over the pages: [page_num] counts from 0
    and [page_text] is what [extract_text] gives. *)
Fixpoint page_loop (page_num : nat) (pages : list str) (full_text : str)
    : str :=
  match pages with
  | [] => full_text
  | page_text :: rest =>
      if truthy (strip page_text)
      then page_loop (S page_num) rest
             (full_text ++ [10%N; 10%N] ++ lit "--- Page "
              ++ format_nat (page_num + 1) ++ lit " ---"
              ++ [10%N; 10%N] ++ page_text)
      else page_loop (S page_num) rest full_text
  end.

(** [process_pdf]: [exists_] is [os.path.exists(file_path)] (a missing
    file raises [FileNotFoundError], a kind of [OSError]) and [pages] is
    what the PDF reader gives, the page texts or its exception. *)
Definition process_pdf (self : DocumentProcessor.SimpleDocumentProcessor)
    (exists_ : bool) (pages : res (list str)) (file_path : str)
    : res (list (gmap string pyval)) :=
  if negb exists_ then Raise OSError
  else
    page_texts ← pages;
    let full_text := page_loop 0 page_texts [] in
    DocumentProcessor.smart_chunk_text self file_path (clean_text full_text).

End Cleaning.

(** The letters and digits of ASCII, for inputs within ASCII. *)
Definition ascii_isalnum (c : N) : bool :=
  (((48 <=? c) && (c <=? 57)) || ((65 <=? c) && (c <=? 90))
   || ((97 <=? c) && (c <=? 122)))%N.

End TextPipeline.

(** ** The embedding provider: [src/embeddings.py] *)

Module Embeddings.

(** [generate_embeddings]: [provider] stands for the call of the
    embeddings API and the list built from its response; it gives the
    vectors or the exception raised. No call is made for an empty list of
    texts, and an exception is caught and gives the empty list. *)
Definition generate_embeddings
    (provider : list pyval -> res (list (list float)))
    (texts : list pyval) : list (list float) :=
  match texts with
  | [] => []
  | _ :: _ =>
      match provider texts with
      | OK embeddings => embeddings
      | Raise _ => []
      end
  end.

(** [generate_single_embedding]: [result[0] if result else []] *)
Definition generate_single_embedding
    (provider : list pyval -> res (list (list float)))
    (text : pyval) : list float :=
  match generate_embeddings provider [text] with
  | [] => []
  | embedding :: _ => embedding
  end.

End Embeddings.

(** ** The callers: [src/rag_system.py] and [chat_interface.py] *)

Module RagSystem.
Import VectorDB.

(** [SimpleDocumentProcessor()] with its default arguments. *)
Definition default_processor : DocumentProcessor.SimpleDocumentProcessor :=
  {| DocumentProcessor.chunk_size := 400; DocumentProcessor.overlap := 50 |}.

(** [[chunk['text'] for chunk in chunks]] *)
Fixpoint chunk_texts (cs : list (gmap string pyval)) : res (list pyval) :=
  match cs with
  | [] => OK []
  | chunk :: rest =>
      t ← getitem chunk "text";
      ts ← chunk_texts rest;
      OK (t :: ts)
  end.

(** [RAGSystem.add_document]: no exception is caught here. *)
Definition add_document (isalnum : N -> bool)
    (provider : list pyval -> res (list (list float)))
    (exists_ : bool) (pages : res (list str)) (write_ok : bool)
    (w : world) (file_path : str) : outcome pyval :=
  match TextPipeline.process_pdf isalnum default_processor exists_ pages
          file_path with
  | Raise e => Raised e w []
  | OK new_chunks =>
      match chunk_texts new_chunks with
      | Raise e => Raised e w []
      | OK texts =>
          insert_documents write_ok w new_chunks
            (Embeddings.generate_embeddings provider texts)
      end
  end.

Definition no_information : str :=
  lit "I couldn't find any relevant information to answer your question.".

(** [RAGSystem.query]: [chat] stands for the completion request made
    with the prompt built from the question and the relevant chunks; it
    gives the content of the answer or the text of the exception. *)
Definition query (provider : list pyval -> res (list (list float)))
    (chat : str -> list SearchResult -> pyval + str)
    (w : world) (question : str) (top_k : Z) : outcome pyval :=
  let query_embedding :=
    Embeddings.generate_single_embedding provider (VStr question) in
  match search_similar w query_embedding top_k tenth with
  | Raised e w' out => Raised e w' out
  | Returned [] w' out => Returned (VStr no_information) w' out
  | Returned (r :: rs) w' out =>
      match chat question (r :: rs) with
      | inl answer => Returned answer w' out
      | inr message =>
          Returned (VStr (lit "Error generating answer: " ++ message)) w' out
      end
  end.

(** [RAGKnowledgeAssistant.search_knowledge_base] *)
Definition search_knowledge_base
    (provider : list pyval -> res (list (list float)))
    (w : world) (query : str) (top_k : Z) : outcome (list SearchResult) :=
  match Embeddings.generate_single_embedding provider (VStr query) with
  | [] => Returned [] w []
  | x :: xs => search_similar w (x :: xs) top_k tenth
  end.

End RagSystem.

(** ** Further vocabulary *)

Section ChunkerShapes.
Import DocumentProcessor.

(** Texts made of whitespace only, and texts without whitespace. *)
Definition all_space (s : str) : Prop := Forall (fun c => isspace c = true) s.

Definition no_space (s : str) : Prop := Forall (fun c => isspace c = false) s.

(** The first character of [s], if any, is not whitespace. *)
Definition edge_ok (s : str) : Prop :=
  match s with
  | [] => True
  | c :: _ => isspace c = false
  end.

(** [s] neither starts nor ends with whitespace. *)
Definition trimmed (s : str) : Prop := edge_ok s /\ edge_ok (reverse s).

(** [c] was made by [_create_chunk] for [source] from a text that is not
    blank. *)
Definition emitted (source : str) (c : gmap string pyval) : Prop :=
  exists t i, c = _create_chunk t i source /\ strip t <> [].

(** Invariant of the accumulating loops: the chunks emitted so far were
    made by [_create_chunk] and the running chunk is trimmed. *)
Definition tidy (source : str) (st : loop_state) : Prop :=
  Forall (emitted source) (chunks st) /\ trimmed (current_chunk st).

End ChunkerShapes.

Section StoreShapes.
Import VectorDB.

(** A chunk with what a search result reads from it: a text, a source
    that is a string, and an identifier. *)
Definition complete_chunk (c : gmap string pyval) : Prop :=
  is_Some (c !! "text") /\ (exists s, c !! "source" = Some (VStr s))
  /\ is_Some (c !! "chunk_id").

(** The three lists have one length and every chunk is complete. *)
Definition well_formed (self : MilvusVectorDB) : Prop :=
  parallel self /\ Forall complete_chunk (chunks self).

(** Two calls end the same way: with the same value, or with the same
    exception. *)
Definition same_answer {A} (o1 o2 : outcome A) : Prop :=
  match o1, o2 with
  | Returned r1 _ _, Returned r2 _ _ => r1 = r2
  | Raised e1 _ _, Raised e2 _ _ => e1 = e2
  | _, _ => False
  end.

(** Length of what [write_run] writes. *)
Definition pending_length (run : option (bool * str)) : nat :=
  match run with
  | None => 0
  | Some (seen, ws) => (if seen : bool then 2 else 1) + length ws
  end.

End StoreShapes.

(** ** Further example data *)

(** The [float32] unit vectors of dimension 2, two stores written out in
    full, the first well-formed with vectors of dimension 2, the second
    with a vector of dimension 3 beside one of dimension 2, and a store
    with a snapshot of [store_pair] on disk. *)
Definition unit_x : list float := [f32_of (py_float 1); f32_of (py_float 0)].

Definition unit_y : list float := [f32_of (py_float 0); f32_of (py_float 1)].

Definition store_pair : VectorDB.world :=
{| VectorDB.db :=
     {| VectorDB.storage_path := lit "data/vector_storage.pkl";
        VectorDB.chunks := [example_chunk "a"; example_chunk "b"];
        VectorDB.embeddings := [ndarray unit_x; ndarray unit_y];
        VectorDB.metadata := [∅; ∅] |};
   VectorDB.disk := None |}.

Definition store_mixed : VectorDB.world :=
{| VectorDB.db :=
     {| VectorDB.storage_path := lit "data/vector_storage.pkl";
        VectorDB.chunks := [example_chunk "a"; example_chunk "b"];
        VectorDB.embeddings :=
          [ndarray unit_x; ndarray (unit_x ++ [f32_of (py_float 2)])];
        VectorDB.metadata := [∅; ∅] |};
   VectorDB.disk := None |}.

Definition store_saved : VectorDB.world :=
{| VectorDB.db := VectorDB.db store_pair;
   VectorDB.disk :=
     Some (VectorDB.Pickled [example_chunk "a"; example_chunk "b"]
             [pylist unit_x; pylist unit_y] [∅; ∅]) |}.

(** A provider that always fails, one that gives the same vector of
    dimension 2 for every text, and a completion service that always
    answers. *)
Definition failing_provider (texts : list pyval) : res (list (list float)) :=
  Raise OSError.

Definition constant_provider (texts : list pyval)
    : res (list (list float)) :=
  OK (map (fun _ => [py_float 1; py_float 0]) texts).

Definition echo_chat (question : str) (relevant : list VectorDB.SearchResult)
    : pyval + str :=
  inl (VStr question).

(** A text of whitespace only, a token of 25 letters, a short line with
    blanks around it, and the page texts of a document with a blank
    page. *)
Definition blank_text : str := [32%N; 10%N; 10%N; 9%N; 13%N].

Definition long_token : str := lit "AAAAAAAAAAAAAAAAAAAAAAAAA".

Definition short_line : str := lit "  hello  ".

Definition two_pages : list str := [lit "First page."; blank_text; lit "Third."].

(** * Properties *)

(** Unfolding of the bind of [res]. *)
Ltac unfold_res := unfold mbind, res_bind, mret, res_ret in *.

(** ** Insertion into the store *)

Section InsertFacts.
Import VectorDB.

Lemma array2_uniform (es : list (list float)) :
  uniform es ->
  array2 (map pylist es) = OK (map (map f32_of) es).
Proof.
  intros Hu. destruct es as [|r rest]; [reflexivity|].
  cbn [map array2].
  replace (forallb _ (map pylist rest)) with true.
  - cbn [map as_float32]. f_equal. f_equal.
    rewrite map_map. reflexivity.
  - symmetry. apply forallb_forall. intros v Hv.
    apply in_map_iff in Hv as (u & <- & Hin).
    apply Nat.eqb_eq. unfold dim. simpl.
    apply Hu; [right; apply list_elem_of_In, Hin | left].
Qed.

Lemma array2_not_uniform (es : list (list float)) u v :
  u ∈ es -> v ∈ es -> length u <> length v ->
  array2 (map pylist es) = Raise ValueError_inhomogeneous.
Proof.
  intros Hu Hv Hne. destruct es as [|r rest].
  { inversion Hu. }
  cbn [map array2].
  destruct (forallb _ (map pylist rest)) eqn:Hall; [|reflexivity].
  exfalso. rewrite forallb_forall in Hall.
  assert (Hlen : forall x, x ∈ r :: rest -> length x = length r).
  { intros x Hx. apply list_elem_of_In in Hx. destruct Hx as [<-|Hx]; [reflexivity|].
    specialize (Hall (pylist x) (in_map _ _ _ Hx)).
    apply Nat.eqb_eq in Hall. exact Hall. }
  apply Hne. rewrite (Hlen u Hu), (Hlen v Hv). reflexivity.
Qed.

Lemma metadata_list_length cs ms :
  metadata_list cs = OK ms -> length ms = length cs.
Proof.
  revert ms. induction cs as [|c cs IH]; intros ms H; simpl in H.
  - injection H as <-. reflexivity.
  - unfold_res. destruct (metadata_of c); [|discriminate].
    destruct (metadata_list cs) as [ms'|]; [|discriminate].
    injection H as <-. simpl. f_equal. apply IH. reflexivity.
Qed.

Lemma metadata_list_has_keys cs :
  Forall has_keys cs -> exists ms, metadata_list cs = OK ms.
Proof.
  induction 1 as [|c cs [[i Hi] [s Hs]] _ [ms IH]]; simpl.
  - eexists; reflexivity.
  - unfold metadata_of, getitem. rewrite Hi, Hs. unfold_res.
    rewrite IH. eexists; reflexivity.
Qed.

Lemma insert_documents_complete write_ok w cs es ms :
  length cs = length es ->
  uniform es ->
  metadata_list cs = OK ms ->
  insert_documents write_ok w cs es
  = Returned VNone (inserted write_ok w cs es ms)
      (inserted_output write_ok w cs).
Proof.
  intros Hlen Hu Hms. unfold insert_documents, insert_try.
  apply Nat.eqb_eq in Hlen. rewrite Hlen. cbn [negb].
  rewrite (array2_uniform es Hu), Hms.
  unfold save_to_disk, inserted, inserted_output, with_lists.
  rewrite map_map.
  destruct write_ok; cbn; rewrite length_app; reflexivity.
Qed.

Lemma insert_documents_successful write_ok w cs es :
  successful w (Insert write_ok cs es) = true ->
  length cs = length es /\ exists ms,
    metadata_list cs = OK ms
    /\ insert_documents write_ok w cs es
       = Returned VNone (inserted write_ok w cs es ms)
           (inserted_output write_ok w cs).
Proof.
  unfold successful, insert_documents, insert_try.
  destruct (length cs =? length es)%nat eqn:Hlen; cbn [negb]; [|discriminate].
  apply Nat.eqb_eq in Hlen. intros H. split; [exact Hlen|].
  destruct (array2 (map pylist es)) as [rows|e] eqn:Harr; [|discriminate].
  destruct (metadata_list cs) as [ms|e] eqn:Hms; [|discriminate].
  exists ms. split; [reflexivity|].
  assert (Hrows : rows = map (map f32_of) es).
  { destruct es as [|r rest]; cbn [map array2] in Harr.
    - injection Harr as <-. reflexivity.
    - destruct (forallb _ _); [|discriminate].
      injection Harr as <-. cbn [map as_float32]. f_equal.
      rewrite map_map. reflexivity. }
  subst rows. unfold save_to_disk, inserted, inserted_output.
  rewrite map_map.
  destruct write_ok; cbn; rewrite length_app; reflexivity.
Qed.

End InsertFacts.

Section InsertClaims.
Import VectorDB.

(** C1: when the two input lists differ in length, [insert_documents]
    fails with the count-mismatch [ValueError] (the DimensionMismatch of
    the specification), which reaches the caller, and the store is left as
    it was: chunks, embeddings and metadata are those before the call. *)
Theorem insert_count_mismatch_raises write_ok w cs es :
  length cs <> length es ->
  insert_documents write_ok w cs es
  = Raised (ValueError_count_mismatch (length cs) (length es)) w []
  /\ chunks (db (state_after (insert_documents write_ok w cs es)))
     = chunks (db w)
  /\ embeddings (db (state_after (insert_documents write_ok w cs es)))
     = embeddings (db w)
  /\ metadata (db (state_after (insert_documents write_ok w cs es)))
     = metadata (db w).
Proof.
  intros Hne. unfold insert_documents.
  destruct (length cs =? length es)%nat eqn:E.
  - apply Nat.eqb_eq in E. contradiction.
  - cbn. repeat split; reflexivity.
Qed.

Lemma insert_count_mismatch_raises_witness :
  length [example_chunk "a"; example_chunk "b"] <> length [[py_float 1]]
  /\ insert_documents true store_dim2
       [example_chunk "a"; example_chunk "b"] [[py_float 1]]
     = Raised (ValueError_count_mismatch 2 1) store_dim2 [].
Proof.
  split.
  - simpl. lia.
  - apply (insert_count_mismatch_raises true store_dim2
             [example_chunk "a"; example_chunk "b"] [[py_float 1]]).
    simpl. lia.
Defined.

(** C8, as the code has it: a successful call of [insert_documents]
    appends the chunks, the vectors converted to [float32] and the derived
    metadata records, in the given order; it writes the snapshot when the
    file system accepts the write; it prints the new total, old count plus
    number of inserted chunks; and it returns [None]. *)
Theorem insert_appends_in_order write_ok w cs es :
  successful w (Insert write_ok cs es) = true ->
  exists ms w' out,
    insert_documents write_ok w cs es = Returned VNone w' out
    /\ metadata_list cs = OK ms
    /\ chunks (db w') = chunks (db w) ++ cs
    /\ embeddings (db w')
       = embeddings (db w) ++ map (fun e => ndarray (map f32_of e)) es
    /\ metadata (db w') = metadata (db w) ++ ms
    /\ (write_ok = true ->
        disk w' = Some (Pickled (chunks (db w'))
                                (map tolist (embeddings (db w')))
                                (metadata (db w'))))
    /\ last out
       = Some (MsgStored (length cs) (length (chunks (db w)) + length cs))
    /\ length (chunks (db w')) = (length (chunks (db w)) + length cs)%nat.
Proof.
  intros Hs. apply insert_documents_successful in Hs as (_ & ms & Hms & ->).
  exists ms, (inserted write_ok w cs es ms), (inserted_output write_ok w cs).
  repeat split; try reflexivity; try exact Hms.
  - intros ->. reflexivity.
  - cbn. apply length_app.
Qed.

Lemma insert_appends_in_order_witness :
  successful store_dim2
    (Insert true [example_chunk "b"] [[py_float 0; py_float 1]]) = true
  /\ exists ms w' out,
    insert_documents true store_dim2 [example_chunk "b"]
      [[py_float 0; py_float 1]] = Returned VNone w' out
    /\ metadata_list [example_chunk "b"] = OK ms
    /\ chunks (db w') = chunks (db store_dim2) ++ [example_chunk "b"]
    /\ embeddings (db w')
       = embeddings (db store_dim2)
         ++ map (fun e => ndarray (map f32_of e)) [[py_float 0; py_float 1]]
    /\ metadata (db w') = metadata (db store_dim2) ++ ms
    /\ (true = true ->
        disk w' = Some (Pickled (chunks (db w'))
                                (map tolist (embeddings (db w')))
                                (metadata (db w'))))
    /\ last out = Some (MsgStored 1 (1 + 1))
    /\ length (chunks (db w')) = (1 + 1)%nat.
Proof.
  split.
  - vm_compute. reflexivity.
  - apply (insert_appends_in_order true store_dim2 [example_chunk "b"]
             [[py_float 0; py_float 1]]).
    vm_compute. reflexivity.
Defined.

(** C8 as stated fails: a successful call returns [None], not the entry
    count, and when the write is refused the snapshot is not written
    although the call succeeds. *)
Lemma insert_returns_count_counterexample :
  successful empty_store
    (Insert false [example_chunk "a"] [[py_float 1; py_float 0]]) = true
  /\ (forall w' out,
        insert_documents false empty_store [example_chunk "a"]
          [[py_float 1; py_float 0]] <> Returned (VInt 1) w' out)
  /\ length (chunks (db (state_after
       (insert_documents false empty_store [example_chunk "a"]
          [[py_float 1; py_float 0]])))) = 1%nat
  /\ disk (state_after
       (insert_documents false empty_store [example_chunk "a"]
          [[py_float 1; py_float 0]])) = None.
Proof.
  split; [vm_compute; reflexivity|].
  split; [|split; vm_compute; reflexivity].
  intros w' out H.
  assert (Hs : successful empty_store
            (Insert false [example_chunk "a"] [[py_float 1; py_float 0]])
          = true) by (vm_compute; reflexivity).
  apply insert_documents_successful in Hs as (_ & ms & _ & Heq).
  rewrite Heq in H. discriminate H.
Qed.

(** C7, as the code has it: the lengths of the vectors of a batch are
    compared with each other only. When two of them differ, nothing is
    stored, and the error is caught and printed: the call returns [None].
    When they agree and every chunk has its keys, the batch is appended
    whatever the dimensionality of the vectors already stored. *)
Theorem insert_dimension_check write_ok w cs es :
  length cs = length es ->
  (forall u v, u ∈ es -> v ∈ es -> length u <> length v ->
     insert_documents write_ok w cs es
     = Returned VNone w [MsgInsertFailed ValueError_inhomogeneous])
  /\ (uniform es -> Forall has_keys cs ->
      exists w' out,
        insert_documents write_ok w cs es = Returned VNone w' out
        /\ has_failure out = false
        /\ map dim (embeddings (db w'))
           = map dim (embeddings (db w)) ++ map length es).
Proof.
  intros Hlen. split.
  - intros u v Hu Hv Hne. unfold insert_documents, insert_try.
    apply Nat.eqb_eq in Hlen. rewrite Hlen. cbn [negb].
    rewrite (array2_not_uniform es u v Hu Hv Hne). reflexivity.
  - intros Hu Hk. destruct (metadata_list_has_keys cs Hk) as [ms Hms].
    exists (inserted write_ok w cs es ms), (inserted_output write_ok w cs).
    split; [apply insert_documents_complete; assumption|].
    split; [destruct write_ok; reflexivity|].
    cbn. rewrite map_app, map_map. f_equal.
    apply map_ext. intros e. unfold dim. cbn. apply length_map.
Qed.

Lemma insert_dimension_check_witness :
  (insert_documents true store_dim2
     [example_chunk "b"; example_chunk "c"]
     [[py_float 1; py_float 0]; [py_float 1]]
   = Returned VNone store_dim2 [MsgInsertFailed ValueError_inhomogeneous])
  /\ (exists w' out,
        insert_documents true store_dim2 [example_chunk "b"]
          [[py_float 1; py_float 0; py_float 2]] = Returned VNone w' out
        /\ has_failure out = false
        /\ map dim (embeddings (db w'))
           = map dim (embeddings (db store_dim2))
             ++ map length [[py_float 1; py_float 0; py_float 2]]).
Proof.
  split.
  - apply (proj1 (insert_dimension_check true store_dim2
                    [example_chunk "b"; example_chunk "c"]
                    [[py_float 1; py_float 0]; [py_float 1]] eq_refl)
             [py_float 1; py_float 0] [py_float 1]).
    + left.
    + right. left.
    + simpl. lia.
  - apply (proj2 (insert_dimension_check true store_dim2
                    [example_chunk "b"]
                    [[py_float 1; py_float 0; py_float 2]] eq_refl)).
    + intros u v Hu Hv.
      apply list_elem_of_singleton in Hu, Hv. subst. reflexivity.
    + constructor; [|constructor].
      split; eexists; vm_compute; reflexivity.
Defined.

(** C7 as stated fails: a vector of dimension 3 is accepted by a store
    that holds a vector of dimension 2; no error is raised and the store
    then holds vectors of both dimensions. *)
Lemma insert_mixed_dimensions_counterexample :
  map dim (embeddings (db store_dim2)) = [2%nat]
  /\ exists w' out,
       insert_documents true store_dim2 [example_chunk "b"]
         [[py_float 1; py_float 0; py_float 2]] = Returned VNone w' out
       /\ has_failure out = false
       /\ map dim (embeddings (db w')) = [2%nat; 3%nat].
Proof.
  split; [vm_compute; reflexivity|].
  eexists _, _. split; [vm_compute; reflexivity|].
  split; vm_compute; reflexivity.
Qed.

End InsertClaims.

(** ** The three parallel lists *)

Section ParallelLists.
Import VectorDB.

Lemma search_similar_state w q k t :
  state_after (search_similar w q k t) = w.
Proof.
  unfold search_similar. destruct (embeddings (db w)); [reflexivity|].
  destruct (search_try (db w) q k t); reflexivity.
Qed.

Lemma get_status_state w : state_after (get_status w) = w.
Proof.
  unfold get_status. destruct (source_list (chunks (db w))); reflexivity.
Qed.

Lemma clear_database_parallel unlink_ok w :
  parallel (db (state_after (clear_database unlink_ok w))).
Proof.
  unfold clear_database.
  destruct (disk w); [destruct unlink_ok|]; split; reflexivity.
Qed.

Lemma successful_insert_parallel write_ok w cs es :
  parallel (db w) ->
  successful w (Insert write_ok cs es) = true ->
  parallel (db (state_after (insert_documents write_ok w cs es))).
Proof.
  intros [Hce Hem] Hs.
  apply insert_documents_successful in Hs as (Hlen & ms & Hms & ->).
  apply metadata_list_length in Hms.
  unfold parallel. cbn.
  rewrite !length_app, length_map. lia.
Qed.

Lemma successful_step_parallel w c :
  parallel (db w) -> successful w c = true -> parallel (db (step w c)).
Proof.
  intros Hp Hs. destruct c as [write_ok cs es|unlink_ok|q k t|]; cbn [step].
  - apply successful_insert_parallel; assumption.
  - apply clear_database_parallel.
  - rewrite search_similar_state. exact Hp.
  - rewrite get_status_state. exact Hp.
Qed.

Lemma run_parallel calls : forall w,
  parallel (db w) -> all_successful w calls = true ->
  parallel (db (run w calls)).
Proof.
  induction calls as [|c rest IH]; intros w Hp Hs; cbn in *.
  - exact Hp.
  - apply andb_prop in Hs as [Hc Hrest].
    apply IH; [apply successful_step_parallel; assumption | exact Hrest].
Qed.

(** C10: starting from a store created without a snapshot, after any
    sequence of calls in which every insertion and every clear succeeds,
    the lists of chunks, embeddings and metadata have one length; a search
    and a status request leave the store as it is. *)
Theorem lists_stay_parallel path calls :
  all_successful (fst (__init__ path None)) calls = true ->
  parallel (db (run (fst (__init__ path None)) calls))
  /\ (forall w q k t, state_after (search_similar w q k t) = w)
  /\ (forall w, state_after (get_status w) = w).
Proof.
  intros Hs. split; [|split].
  - apply run_parallel; [split; reflexivity | exact Hs].
  - apply search_similar_state.
  - apply get_status_state.
Qed.

Lemma lists_stay_parallel_witness :
  all_successful (fst (__init__ (lit "data/vector_storage.pkl") None))
    [Insert true [example_chunk "a"; example_chunk "b"]
       [[py_float 1; py_float 0]; [py_float 0; py_float 1]];
     Search [py_float 1; py_float 0] 5 (py_float 0);
     Status;
     Clear true;
     Insert false [example_chunk "c"] [[py_float 1]]] = true
  /\ parallel (db (run (fst (__init__ (lit "data/vector_storage.pkl") None))
       [Insert true [example_chunk "a"; example_chunk "b"]
          [[py_float 1; py_float 0]; [py_float 0; py_float 1]];
        Search [py_float 1; py_float 0] 5 (py_float 0);
        Status;
        Clear true;
        Insert false [example_chunk "c"] [[py_float 1]]])).
Proof.
  split.
  - vm_compute. reflexivity.
  - apply (lists_stay_parallel (lit "data/vector_storage.pkl")).
    vm_compute. reflexivity.
Defined.

End ParallelLists.

(** ** Chunk numbering *)

Section ChunkNumbering.
Import DocumentProcessor.
Variable self : SimpleDocumentProcessor.
Variable source : str.

Lemma create_chunk_number text i :
  _create_chunk text i source !! "chunk_number" = Some (VInt (Z.of_nat i)).
Proof. unfold _create_chunk. by simplify_map_eq. Qed.

Lemma numbered_nil start : numbered start [].
Proof. reflexivity. Qed.

Lemma numbered_app start cs cs' :
  numbered start cs -> numbered (start + length cs) cs' ->
  numbered start (cs ++ cs').
Proof.
  unfold numbered. intros H H'.
  rewrite map_app, length_app, seq_app, map_app, H, H'. reflexivity.
Qed.

Lemma numbered_snoc start cs text :
  numbered start cs ->
  numbered start (cs ++ [_create_chunk text (start + length cs) source]).
Proof.
  intros H. apply numbered_app; [exact H|].
  unfold numbered. cbn. rewrite create_chunk_number. reflexivity.
Qed.

Lemma force_loop_numbered text starts : forall cs i start,
  numbered start cs -> i = (start + length cs)%nat ->
  numbered start (force_loop self source text starts cs i).
Proof.
  induction starts as [|s starts IH]; intros cs i start Hn Hi; cbn.
  - exact Hn.
  - destruct (truthy _).
    + apply IH.
      * subst i. apply numbered_snoc. exact Hn.
      * rewrite length_app. cbn. lia.
    + apply IH; assumption.
Qed.

Lemma force_split_numbered text start cs :
  _force_split_text self source text start = OK cs -> numbered start cs.
Proof.
  unfold _force_split_text. unfold_res.
  destruct (range0 _ _) as [starts|]; [|discriminate].
  intros [= <-]. apply force_loop_numbered; [apply numbered_nil|].
  cbn. lia.
Qed.

Lemma flush_well_numbered start st :
  well_numbered start st -> well_numbered start (flush source st).
Proof.
  intros [Hn Hi]. unfold flush. destruct (truthy _); [|split; assumption].
  split; cbn.
  - rewrite Hi. apply numbered_snoc. exact Hn.
  - rewrite length_app, Hi. cbn. lia.
Qed.

Lemma extend_well_numbered start st more cur :
  well_numbered start st -> numbered (chunk_id st) more ->
  well_numbered start
    {| chunks := chunks st ++ more; current_chunk := cur;
       chunk_id := (chunk_id st + length more)%nat |}.
Proof.
  intros [Hn Hi] Hm. split; cbn.
  - apply numbered_app; [exact Hn|]. rewrite <- Hi. exact Hm.
  - rewrite length_app. lia.
Qed.

Lemma sentence_step_well_numbered start st sentence st' :
  well_numbered start st ->
  sentence_step self source st sentence = OK st' ->
  well_numbered start st'.
Proof.
  intros Hw. unfold sentence_step.
  destruct (negb _); [intros [= <-]; exact Hw|].
  destruct (_ <? _); [intros [= <-]; exact Hw|].
  apply flush_well_numbered in Hw.
  destruct (_ <? _).
  - unfold_res.
    destruct (_force_split_text _ _ _ _) as [more|] eqn:Hf; [|discriminate].
    intros [= <-]. apply extend_well_numbered; [exact Hw|].
    eapply force_split_numbered, Hf.
  - intros [= <-]. exact Hw.
Qed.

Lemma sentence_loop_well_numbered start sentences : forall st st',
  well_numbered start st ->
  sentence_loop self source sentences st = OK st' ->
  well_numbered start st'.
Proof.
  induction sentences as [|s rest IH]; intros st st' Hw; cbn.
  - intros [= <-]. exact Hw.
  - unfold_res.
    destruct (sentence_step _ _ _ _) as [st1|] eqn:H1; [|discriminate].
    apply IH. eapply sentence_step_well_numbered; eassumption.
Qed.

Lemma split_long_text_numbered text start cs :
  _split_long_text self source text start = OK cs -> numbered start cs.
Proof.
  unfold _split_long_text. unfold_res.
  destruct (sentence_loop _ _ _ _) as [st|] eqn:Hl; [|discriminate].
  intros [= <-].
  eapply flush_well_numbered, sentence_loop_well_numbered; [|exact Hl].
  split; [apply numbered_nil | cbn; lia].
Qed.

Lemma paragraph_step_well_numbered start st para st' :
  well_numbered start st ->
  paragraph_step self source st para = OK st' ->
  well_numbered start st'.
Proof.
  intros Hw. unfold paragraph_step.
  destruct (negb _); [intros [= <-]; exact Hw|].
  destruct (_ <? _); [intros [= <-]; exact Hw|].
  apply flush_well_numbered in Hw.
  destruct (_ <? _).
  - unfold_res.
    destruct (_split_long_text _ _ _ _) as [more|] eqn:Hf; [|discriminate].
    intros [= <-]. apply extend_well_numbered; [exact Hw|].
    eapply split_long_text_numbered, Hf.
  - intros [= <-]. exact Hw.
Qed.

Lemma paragraph_loop_well_numbered start paragraphs : forall st st',
  well_numbered start st ->
  paragraph_loop self source paragraphs st = OK st' ->
  well_numbered start st'.
Proof.
  induction paragraphs as [|p rest IH]; intros st st' Hw; cbn.
  - intros [= <-]. exact Hw.
  - unfold_res.
    destruct (paragraph_step _ _ _ _) as [st1|] eqn:H1; [|discriminate].
    apply IH. eapply paragraph_step_well_numbered; eassumption.
Qed.

(** With a non-zero stride the loops never raise. *)
Hypothesis stride_nonzero : chunk_size self <> overlap self.

Lemma force_split_returns text start :
  exists cs, _force_split_text self source text start = OK cs.
Proof.
  unfold _force_split_text, range0.
  destruct (Z.eqb_spec (chunk_size self - overlap self) 0) as [E|_]; [lia|].
  destruct (_ <? 0); eexists; reflexivity.
Qed.

Lemma sentence_loop_returns sentences : forall st,
  exists st', sentence_loop self source sentences st = OK st'.
Proof.
  induction sentences as [|s rest IH]; intros st; cbn.
  - eexists; reflexivity.
  - assert (H1 : exists st1, sentence_step self source st s = OK st1).
    { unfold sentence_step.
      destruct (negb _); [eexists; reflexivity|].
      destruct (_ <? _); [eexists; reflexivity|].
      destruct (_ <? _); [|eexists; reflexivity].
      destruct (force_split_returns (strip s)
                  (chunk_id (flush source st))) as [cs ->].
      eexists; reflexivity. }
    destruct H1 as [st1 ->]. apply IH.
Qed.

Lemma split_long_text_returns text start :
  exists cs, _split_long_text self source text start = OK cs.
Proof.
  unfold _split_long_text.
  destruct (sentence_loop_returns (re_split_sentences false false [] text)
              {| chunks := []; current_chunk := []; chunk_id := start |})
    as [st ->].
  eexists; reflexivity.
Qed.

Lemma paragraph_loop_returns paragraphs : forall st,
  exists st', paragraph_loop self source paragraphs st = OK st'.
Proof.
  induction paragraphs as [|p rest IH]; intros st; cbn.
  - eexists; reflexivity.
  - assert (H1 : exists st1, paragraph_step self source st p = OK st1).
    { unfold paragraph_step.
      destruct (negb _); [eexists; reflexivity|].
      destruct (_ <? _); [eexists; reflexivity|].
      destruct (_ <? _); [|eexists; reflexivity].
      destruct (split_long_text_returns (strip p)
                  (chunk_id (flush source st))) as [cs ->].
      eexists; reflexivity. }
    destruct H1 as [st1 ->]. apply IH.
Qed.

Lemma smart_chunk_text_returns text :
  exists cs, smart_chunk_text self source text = OK cs.
Proof.
  unfold smart_chunk_text.
  destruct (paragraph_loop_returns (split_blank_lines [] text)
              {| chunks := []; current_chunk := []; chunk_id := 0 |})
    as [st ->].
  eexists; reflexivity.
Qed.

End ChunkNumbering.

Section ChunkerClaims.
Import DocumentProcessor.

(** C9: the chunker returns whenever the stride [chunk_size - overlap] is
    not zero, and the [chunk_number] fields of the chunks it returns are
    exactly 0, 1, ..., k-1 in emission order, whichever of the three
    levels emitted each chunk. *)
Theorem chunk_numbers_contiguous self source text :
  (chunk_size self <> overlap self ->
   exists cs, smart_chunk_text self source text = OK cs)
  /\ (forall cs, smart_chunk_text self source text = OK cs ->
      map (fun c : gmap string pyval => c !! "chunk_number") cs
      = map (fun i => Some (VInt (Z.of_nat i))) (seq 0 (length cs))).
Proof.
  split.
  - intros Hne. apply smart_chunk_text_returns. exact Hne.
  - intros cs. unfold smart_chunk_text. unfold_res.
    destruct (paragraph_loop _ _ _ _) as [st|] eqn:Hl; [|discriminate].
    intros [= <-].
    eapply flush_well_numbered, paragraph_loop_well_numbered; [|exact Hl].
    split; [apply numbered_nil | reflexivity].
Qed.

Lemma chunk_numbers_contiguous_witness :
  chunk_size {| chunk_size := 12; overlap := 3 |}
  <> overlap {| chunk_size := 12; overlap := 3 |}
  /\ exists cs,
       smart_chunk_text {| chunk_size := 12; overlap := 3 |}
         (lit "notes.txt") mixed_text = OK cs
       /\ length cs = 6%nat
       /\ map (fun c : gmap string pyval => c !! "chunk_number") cs
          = map (fun i => Some (VInt (Z.of_nat i))) (seq 0 (length cs)).
Proof.
  assert (Hne : chunk_size {| chunk_size := 12; overlap := 3 |}
                <> overlap {| chunk_size := 12; overlap := 3 |})
    by (simpl; lia).
  split; [exact Hne|].
  destruct (chunk_numbers_contiguous {| chunk_size := 12; overlap := 3 |}
              (lit "notes.txt") mixed_text) as [Hret Hnum].
  destruct (Hret Hne) as [cs Hcs].
  exists cs. split; [exact Hcs|]. split; [|exact (Hnum cs Hcs)].
  apply (f_equal (fun r => match r with
                           | OK l => length l
                           | Raise _ => 0%nat
                           end)) in Hcs.
  vm_compute in Hcs. symmetry. exact Hcs.
Defined.

(** C3 at a failing input: with [chunk_size = 10], two paragraphs of 4 and
    5 characters are joined, with their separator, into one chunk of 11
    characters. *)
Theorem joined_paragraphs_exceed_chunk_size :
  exists c,
    smart_chunk_text small_processor (lit "notes.txt") two_paragraphs = OK [c]
    /\ c !! "text" = Some (VStr two_paragraphs)
    /\ c !! "char_count" = Some (VInt 11)
    /\ chunk_size small_processor = 10
    /\ map len (split_blank_lines [] two_paragraphs) = [4; 5].
Proof.
  assert (H : match smart_chunk_text small_processor (lit "notes.txt")
                      two_paragraphs with
              | OK [c] => (c !! "text", c !! "char_count")
              | _ => (None, None)
              end = (Some (VStr two_paragraphs), Some (VInt 11)))
    by (vm_compute; reflexivity).
  destruct (smart_chunk_text small_processor (lit "notes.txt") two_paragraphs)
    as [[|c [|c' rest]]|e]; try discriminate H.
  injection H as Ht Hc. exists c.
  split; [reflexivity|]. split; [exact Ht|]. split; [exact Hc|].
  split; vm_compute; reflexivity.
Qed.

(** C4 at a failing input: the first forced window of [long_sentence] ends
    with a space; the stored text is the stripped window, 9 characters,
    while [char_count] is 10. *)
Theorem window_char_count_differs :
  exists c rest,
    smart_chunk_text small_processor (lit "notes.txt") long_sentence
    = OK (c :: rest)
    /\ c !! "text" = Some (VStr (lit "AAAAAAAAA"))
    /\ c !! "char_count" = Some (VInt 10)
    /\ len (lit "AAAAAAAAA") = 9.
Proof.
  assert (H : match smart_chunk_text small_processor (lit "notes.txt")
                      long_sentence with
              | OK (c :: _) => (c !! "text", c !! "char_count")
              | _ => (None, None)
              end = (Some (VStr (lit "AAAAAAAAA")), Some (VInt 10)))
    by (vm_compute; reflexivity).
  destruct (smart_chunk_text small_processor (lit "notes.txt") long_sentence)
    as [[|c rest]|e]; try discriminate H.
  injection H as Ht Hc. exists c, rest.
  split; [reflexivity|]. split; [exact Ht|]. split; [exact Hc|].
  vm_compute. reflexivity.
Qed.

End ChunkerClaims.

(** ** Chunk sizes *)

Section ChunkSizes.
Import DocumentProcessor.
Variable self : SimpleDocumentProcessor.
Variable source : str.
Hypothesis size_nonneg : 0 <= chunk_size self.

Lemma create_chunk_counts text i :
  _create_chunk text i source !! "text" = Some (VStr (strip text))
  /\ _create_chunk text i source !! "char_count" = Some (VInt (len text)).
Proof. unfold _create_chunk. split; by simplify_map_eq. Qed.

Lemma bounded_snoc n cs text i :
  bounded n cs -> len text <= n ->
  bounded n (cs ++ [_create_chunk text i source]).
Proof.
  intros Hb Hl. apply Forall_app. split; [exact Hb|].
  constructor; [|constructor].
  exists (len text). split; [apply create_chunk_counts | exact Hl].
Qed.

Lemma bounded_weaken n m cs : n <= m -> bounded n cs -> bounded m cs.
Proof.
  intros Hnm Hb. eapply Forall_impl; [exact Hb|].
  intros c (k & Hk & Hle). exists k. split; [exact Hk | lia].
Qed.

Lemma slice_window_length (text : str) i :
  0 <= i -> len (slice text i (i + chunk_size self)) <= chunk_size self.
Proof.
  intros Hi. unfold slice, slice_index, len.
  rewrite length_take, length_drop.
  destruct (Z.ltb_spec i 0); [lia|].
  destruct (Z.ltb_spec (i + chunk_size self) 0); lia.
Qed.

Lemma force_loop_bounded text starts : forall cs i,
  Forall (fun s => 0 <= s) starts ->
  bounded (chunk_size self) cs ->
  bounded (chunk_size self) (force_loop self source text starts cs i).
Proof.
  induction starts as [|s starts IH]; intros cs i Hs Hb; cbn.
  - exact Hb.
  - inversion Hs as [|? ? Hs0 Hs']; subst.
    destruct (truthy _); [|apply IH; assumption].
    apply IH; [exact Hs'|].
    apply bounded_snoc; [exact Hb | apply slice_window_length, Hs0].
Qed.

Lemma range0_nonneg stop step starts :
  range0 stop step = OK starts -> Forall (fun s => 0 <= s) starts.
Proof.
  unfold range0. destruct (Z.eqb_spec step 0); [discriminate|].
  destruct (Z.ltb_spec step 0); intros [= <-]; [constructor|].
  apply Forall_forall. intros x Hx.
  apply list_elem_of_In, in_map_iff in Hx as (k & <- & _). nia.
Qed.

Lemma force_split_bounded text start cs :
  _force_split_text self source text start = OK cs ->
  bounded (chunk_size self) cs.
Proof.
  unfold _force_split_text. unfold_res.
  destruct (range0 _ _) as [starts|] eqn:Hr; [|discriminate].
  intros [= <-]. apply force_loop_bounded; [|constructor].
  eapply range0_nonneg, Hr.
Qed.

Lemma flush_within n st : within n st -> within n (flush source st).
Proof.
  intros [Hb Hc]. unfold flush. destruct (truthy _); [|split; assumption].
  split; cbn; [apply bounded_snoc; assumption | exact Hc].
Qed.

Lemma sentence_step_within st sentence st' :
  within (chunk_size self) st ->
  sentence_step self source st sentence = OK st' ->
  within (chunk_size self) st'.
Proof.
  intros Hw. unfold sentence_step.
  destruct (negb _); [intros [= <-]; exact Hw|].
  destruct (Z.ltb_spec (len (current_chunk st) + len (strip sentence))
              (chunk_size self)) as [Hfit|_].
  { intros [= <-]. destruct Hw as [Hb Hc]. split; [exact Hb|].
    cbn [current_chunk].
    destruct (truthy _); [|unfold len in *; lia].
    unfold len in *. rewrite ?length_app. simpl length. lia. }
  apply flush_within in Hw. destruct Hw as [Hb Hc].
  destruct (Z.ltb_spec (chunk_size self) (len (strip sentence))) as [_|Hle].
  - unfold_res.
    destruct (_force_split_text _ _ _ _) as [more|] eqn:Hf; [|discriminate].
    intros [= <-]. split; cbn; [|exact size_nonneg].
    apply Forall_app. split; [exact Hb|].
    eapply force_split_bounded, Hf.
  - intros [= <-]. split; [exact Hb | exact Hle].
Qed.

Lemma sentence_loop_within sentences : forall st st',
  within (chunk_size self) st ->
  sentence_loop self source sentences st = OK st' ->
  within (chunk_size self) st'.
Proof.
  induction sentences as [|s rest IH]; intros st st' Hw; cbn.
  - intros [= <-]. exact Hw.
  - unfold_res.
    destruct (sentence_step _ _ _ _) as [st1|] eqn:H1; [|discriminate].
    apply IH. eapply sentence_step_within; eassumption.
Qed.

(** The sentence pass and the forced windows keep to [chunk_size]. *)
Lemma split_long_text_bounded text start cs :
  _split_long_text self source text start = OK cs ->
  bounded (chunk_size self) cs.
Proof.
  unfold _split_long_text. unfold_res.
  destruct (sentence_loop _ _ _ _) as [st|] eqn:Hl; [|discriminate].
  intros [= <-].
  eapply flush_within, sentence_loop_within; [|exact Hl].
  split; [constructor | exact size_nonneg].
Qed.

Lemma paragraph_step_within st para st' :
  within (chunk_size self + 1) st ->
  paragraph_step self source st para = OK st' ->
  within (chunk_size self + 1) st'.
Proof.
  intros Hw. unfold paragraph_step.
  destruct (negb _); [intros [= <-]; exact Hw|].
  destruct (Z.ltb_spec (len (current_chunk st) + len (strip para))
              (chunk_size self)) as [Hfit|_].
  { intros [= <-]. destruct Hw as [Hb Hc]. split; [exact Hb|].
    cbn [current_chunk].
    destruct (truthy _); [|unfold len in *; lia].
    unfold len in *. rewrite ?length_app. simpl length. lia. }
  apply flush_within in Hw. destruct Hw as [Hb Hc].
  destruct (Z.ltb_spec (chunk_size self) (len (strip para))) as [_|Hle].
  - unfold_res.
    destruct (_split_long_text _ _ _ _) as [more|] eqn:Hf; [|discriminate].
    intros [= <-].
    split; [cbn [chunks] | change (0 <= chunk_size self + 1); lia].
    apply Forall_app. split; [exact Hb|].
    eapply bounded_weaken; [|eapply split_long_text_bounded, Hf]. lia.
  - intros [= <-]. split; [exact Hb | cbn [current_chunk]; lia].
Qed.

Lemma paragraph_loop_within paragraphs : forall st st',
  within (chunk_size self + 1) st ->
  paragraph_loop self source paragraphs st = OK st' ->
  within (chunk_size self + 1) st'.
Proof.
  induction paragraphs as [|p rest IH]; intros st st' Hw; cbn.
  - intros [= <-]. exact Hw.
  - unfold_res.
    destruct (paragraph_step _ _ _ _) as [st1|] eqn:H1; [|discriminate].
    apply IH. eapply paragraph_step_within; eassumption.
Qed.

(** What the code guarantees in place of C3: no chunk has more than
    [chunk_size + 1] characters; the one character in excess comes from
    the paragraph separator, which the test of the paragraph pass does not
    count. *)
Lemma smart_chunk_text_bounded text cs :
  smart_chunk_text self source text = OK cs ->
  bounded (chunk_size self + 1) cs.
Proof.
  unfold smart_chunk_text. unfold_res.
  destruct (paragraph_loop _ _ _ _) as [st|] eqn:Hl; [|discriminate].
  intros [= <-].
  eapply flush_within, paragraph_loop_within; [|exact Hl].
  split; [constructor | change (0 <= chunk_size self + 1); lia].
Qed.

End ChunkSizes.

(** ** Search *)

Section Search.
Import VectorDB.

Lemma negb_Qle_bool a b : negb (Qle_bool b a) = true <-> (a < b)%Q.
Proof.
  rewrite negb_true_iff. split.
  - intros H. apply Qnot_le_lt. intros Hle.
    apply Qle_bool_iff in Hle. congruence.
  - intros H. destruct (Qle_bool b a) eqn:E; [|reflexivity].
    apply Qle_bool_iff in E. exfalso. exact (Qlt_not_le _ _ H E).
Qed.

Lemma not_nan_class x : negb (is_nan x) = true <-> class x <> 2.
Proof.
  destruct x as [s|[]| |s m e]; cbn; split; intros; try lia; congruence.
Qed.

Lemma float_lt_spec x y :
  float_lt x y = true <-> class x <> 2 /\ class y <> 2 /\ key_lt x y.
Proof.
  unfold float_lt, key_lt.
  rewrite !andb_true_iff, orb_true_iff, andb_true_iff.
  rewrite Z.ltb_lt, Z.eqb_eq, negb_Qle_bool, !not_nan_class. tauto.
Qed.

Lemma float_le_spec x y :
  float_le x y = true <-> class x <> 2 /\ class y <> 2 /\ ~ key_lt y x.
Proof.
  unfold float_le, key_lt.
  rewrite !andb_true_iff, orb_true_iff, andb_true_iff.
  rewrite Z.ltb_lt, Z.eqb_eq, Qle_bool_iff, !not_nan_class. split.
  - intros ((Hcx & Hcy) & H). repeat split; try assumption.
    intros [Hlt|[Heq Hv]]; destruct H as [H|[H Hle]]; try lia.
    exact (Qlt_not_le _ _ Hv Hle).
  - intros (Hcx & Hcy & H). split; [tauto|].
    destruct (Z.lt_trichotomy (class x) (class y)) as [Hlt|[Heq|Hgt]].
    + left; exact Hlt.
    + right. split; [exact Heq|]. apply Qnot_lt_le. intros Hv. apply H. right. split; [lia|exact Hv].
    + exfalso. apply H. left. lia.
Qed.










Lemma slice_sublist {A} (l : list A) lo hi : slice l lo hi `sublist_of` l.
Proof.
  unfold slice. etransitivity; [apply sublist_take | apply sublist_drop].
Qed.


Lemma top_indices_length a k : 0 <= k -> len (top_indices a k) <= k.
Proof.
  intros Hk. unfold top_indices, slice, slice_index, len.
  rewrite length_take.
  destruct (Z.ltb_spec 0 0); [lia|]. destruct (Z.ltb_spec k 0); lia.
Qed.

Lemma result_loop_kept self a thr idxs : forall acc rs,
  result_loop self a thr idxs acc = OK rs ->
  exists new, rs = acc ++ new /\ Forall2 (built self a) new (kept a thr idxs).
Proof.
  induction idxs as [|i idxs IH]; intros acc rs; cbn.
  - intros [= <-]. exists []. split; [symmetry; apply app_nil_r | constructor].
  - destruct (float_le thr (item a i)).
    + unfold_res. destruct (make_result self i (item a i)) as [r|] eqn:Hr; [|discriminate].
      intros H. apply IH in H as (new & -> & Hnew).
      exists (r :: new). split; [rewrite <- app_assoc; reflexivity|].
      constructor; assumption.
    + apply IH.
Qed.

Lemma built_score self a r i : built self a r i -> score r = item a i.
Proof.
  unfold built, make_result, list_item, getitem. unfold_res.
  repeat (match goal with
          | |- context [match ?x with _ => _ end] => destruct x; try discriminate
          end).
  intros [= <-]. reflexivity.
Qed.

Lemma search_similar_results w q k thr :
  exists results out,
    search_similar w q k thr = Returned results w out
    /\ (results = []
        \/ exists sims,
             cosine_similarities (db w) q = OK sims
             /\ Forall2 (built (db w) sims) results
                  (kept sims thr (top_indices sims k))).
Proof.
  unfold search_similar. destruct (embeddings (db w)) as [|e es] eqn:He.
  { eexists _, _. split; [reflexivity | left; reflexivity]. }
  unfold search_try. unfold_res.
  destruct (cosine_similarities (db w) q) as [sims|] eqn:Hc.
  2:{ eexists _, _. split; [reflexivity | left; reflexivity]. }
  destruct (result_loop _ _ _ _ _) as [rs|] eqn:Hl.
  2:{ eexists _, _. split; [reflexivity | left; reflexivity]. }
  destruct (report _).
  2:{ eexists _, _. split; [reflexivity | left; reflexivity]. }
  eexists _, _. split; [reflexivity|]. right. exists sims. split; [reflexivity|].
  apply result_loop_kept in Hl as (new & -> & Hnew). exact Hnew.
Qed.

Lemma kept_sublist a thr idxs : kept a thr idxs `sublist_of` idxs.
Proof.
  induction idxs as [|i idxs IH]; cbn; [constructor|].
  destruct (float_le _ _); constructor; exact IH.
Qed.

Lemma kept_passes a thr idxs :
  Forall (fun i => float_le thr (item a i) = true) (kept a thr idxs).
Proof.
  apply Forall_forall. intros i Hi.
  apply list_elem_of_In, filter_In in Hi as [_ H]. exact H.
Qed.

Lemma float_le_not_lt x y : float_le x y = true -> float_lt y x = false.
Proof.
  intros H. apply float_le_spec in H as (_ & _ & H).
  apply not_true_iff_false. intros Hlt.
  apply float_lt_spec in Hlt as (_ & _ & Hlt). contradiction.
Qed.

Lemma built_scores self a results idxs :
  Forall2 (built self a) results idxs ->
  map score results = map (item a) idxs.
Proof.
  induction 1 as [|r i rs js Hb _ IH]; cbn; [reflexivity|].
  rewrite (built_score _ _ _ _ Hb), IH. reflexivity.
Qed.

(** C2, for [top_k >= 0]: the search returns at most [top_k] results,
    none with a score below the threshold, and the scores returned are
    those of the first [top_k] positions of the ranking that pass the
    threshold test: the test is applied after the selection, to the
    selected positions only. *)
Theorem search_top_k_then_threshold w q k thr :
  0 <= k ->
  exists results out,
    search_similar w q k thr = Returned results w out
    /\ len results <= k
    /\ Forall (fun r => float_le thr (score r) = true
                        /\ float_lt (score r) thr = false) results
    /\ (results = []
        \/ exists sims,
             cosine_similarities (db w) q = OK sims
             /\ map score results
                = map (item sims) (kept sims thr (top_indices sims k))).
Proof.
  intros Hk.
  destruct (search_similar_results w q k thr)
    as (results & out & Hs & [->|(sims & Hc & Hb)]).
  { exists [], out. split; [exact Hs|]. split; [exact Hk|].
    split; [constructor | left; reflexivity]. }
  exists results, out. split; [exact Hs|].
  pose proof (built_scores _ _ _ _ Hb) as Hsc.
  split; [|split].
  - unfold len. rewrite (Forall2_length _ _ _ Hb).
    pose proof (sublist_length _ _ (kept_sublist sims thr (top_indices sims k))).
    pose proof (top_indices_length sims k Hk). unfold len in *. lia.
  - assert (H : Forall (fun s => float_le thr s = true) (map score results)).
    { rewrite Hsc. apply Forall_fmap. exact (kept_passes sims thr _). }
    apply Forall_fmap in H. eapply Forall_impl; [exact H|].
    cbn. intros r Hr. split; [exact Hr | apply float_le_not_lt, Hr].
  - right. exists sims. split; [exact Hc | exact Hsc].
Qed.







Lemma f32_of_zero x : is_zero x = true -> is_zero (f32_of x) = true.
Proof. destruct x; cbn [is_zero f32_of]; intros H; try discriminate H; exact H. Qed.

Lemma square_zero x : is_zero x = true -> mul x x = zero.
Proof. destruct x as [[]| | |]; intros H; try discriminate H; reflexivity. Qed.

Lemma div_zero_zero x : is_zero x = true -> div x zero = S754_nan.
Proof. destruct x; intros H; try discriminate H; reflexivity. Qed.

Lemma mul_nan_r x : mul x S754_nan = S754_nan.
Proof. destruct x; reflexivity. Qed.

Lemma add_nan_r x : add x S754_nan = S754_nan.
Proof. destruct x; reflexivity. Qed.

Lemma fold_add_nan l : fold_left add l S754_nan = S754_nan.
Proof. induction l as [|x l IH]; cbn; [reflexivity | exact IH]. Qed.

Lemma fold_add_zero l :
  Forall (fun x => x = zero) l -> fold_left add l zero = zero.
Proof. induction 1 as [|x l -> _ IH]; cbn; [reflexivity | exact IH]. Qed.

Lemma dot_self_zero v : all_zero v -> dot v v = zero.
Proof.
  intros Hv. unfold dot. apply fold_add_zero.
  induction Hv as [|x l Hx _ IH]; cbn; constructor; [|exact IH].
  apply square_zero, Hx.
Qed.

Lemma sum_squares_zero v : all_zero v -> add_reduce (map (fun x => mul x x) v) = zero.
Proof.
  intros Hv. destruct Hv as [|x l Hx Hl]; cbn; [reflexivity|].
  rewrite (square_zero x Hx). apply fold_add_zero.
  induction Hl as [|y l' Hy _ IH]; cbn; constructor; [|exact IH].
  apply square_zero, Hy.
Qed.

Lemma normalised_zero v d :
  all_zero v -> d = zero -> all_nan (map (fun x => div x d) v).
Proof.
  intros Hv ->. induction Hv as [|x l Hx _ IH]; cbn; constructor; [|exact IH].
  apply div_zero_zero, Hx.
Qed.

Lemma dot_nan_r u v :
  u <> [] -> length u = length v -> all_nan v -> dot u v = S754_nan.
Proof.
  intros Hu Hlen Hv. destruct u as [|x u]; [contradiction|].
  destruct Hv as [|y v -> _]; [discriminate|].
  unfold dot. cbn. rewrite mul_nan_r. cbn. apply fold_add_nan.
Qed.

Lemma dot_nan_l u v :
  v <> [] -> length u = length v -> all_nan u -> dot u v = S754_nan.
Proof.
  intros Hv Hlen Hu. destruct v as [|y v]; [contradiction|].
  destruct Hu as [|x u -> _]; [discriminate|].
  unfold dot. cbn. apply fold_add_nan.
Qed.

Lemma array2_rows rows stored :
  array2 rows = OK stored -> stored = map as_float32 rows.
Proof.
  destruct rows as [|r rest]; cbn.
  - intros [= <-]. reflexivity.
  - destruct (forallb _ _); [|discriminate]. intros [= <-]. reflexivity.
Qed.

Lemma matvec_rows rows qn sims :
  matvec rows qn = OK sims ->
  sims = map (fun r => dot r qn) rows
  /\ Forall (fun r => length r = length qn) rows.
Proof.
  unfold matvec. destruct (forallb _ rows) eqn:E; [|discriminate].
  intros [= <-]. split; [reflexivity|].
  apply Forall_forall. intros r Hr. rewrite forallb_forall in E.
  apply Nat.eqb_eq, E, list_elem_of_In, Hr.
Qed.

Lemma as_float32_zero v : all_zero (values v) -> all_zero (as_float32 v).
Proof.
  destruct v as [xs|xs]; cbn; [auto|].
  intros H. apply Forall_fmap. eapply Forall_impl; [exact H|].
  cbn. apply f32_of_zero.
Qed.

(** A zero query vector of positive dimension makes every similarity
    NaN. *)
Lemma zero_query_similarities self q sims :
  q <> [] -> all_zero q ->
  cosine_similarities self q = OK sims -> all_nan sims.
Proof.
  intros Hq Hz. unfold cosine_similarities. unfold_res.
  destruct (array2 _) as [stored|]; [|discriminate].
  intros H. apply matvec_rows in H as [-> Hlen].
  assert (Hqv : all_zero (map f32_of q)).
  { apply Forall_fmap. eapply Forall_impl; [exact Hz|]. cbn. apply f32_of_zero. }
  assert (Hqn : all_nan (map (fun x => div x (norm (map f32_of q))) (map f32_of q))).
  { apply normalised_zero; [exact Hqv|]. unfold norm. rewrite dot_self_zero by exact Hqv. reflexivity. }
  apply Forall_fmap. rewrite Forall_fmap in Hlen |- *.
  eapply Forall_impl; [exact Hlen|]. cbn. intros r Hr.
  apply dot_nan_r; [|exact Hr|exact Hqn].
  intros E. rewrite E in Hr. symmetry in Hr.
  rewrite !length_map in Hr. destruct q; [contradiction | discriminate].
Qed.

(** A stored zero vector of positive dimension has similarity NaN. *)
Lemma zero_row_similarity self q sims i v :
  cosine_similarities self q = OK sims ->
  embeddings self !! i = Some v ->
  values v <> [] -> all_zero (values v) ->
  item sims i = S754_nan.
Proof.
  unfold cosine_similarities. unfold_res.
  destruct (array2 _) as [stored|] eqn:Ha; [|discriminate].
  apply array2_rows in Ha. subst stored.
  intros H Hi Hne Hz. apply matvec_rows in H as [-> Hlen].
  unfold item. rewrite !list_lookup_fmap, Hi. cbn.
  rewrite Forall_forall in Hlen.
  set (r := as_float32 v) in *.
  assert (Hr : all_zero r) by (apply as_float32_zero, Hz).
  assert (Hrne : r <> []).
  { subst r. destruct v as [xs|xs]; cbn in *; [exact Hne|].
    destruct xs; [contradiction | discriminate]. }
  set (qn := map _ (map f32_of q)) in *.
  assert (Hl : length (map (fun x => div x (row_norm r)) r) = length qn).
  { apply Hlen. apply list_elem_of_fmap. exists r. split; [reflexivity|].
    apply list_elem_of_fmap. exists v. split; [reflexivity|].
    eapply list_elem_of_lookup_2, Hi. }
  apply dot_nan_l; [|exact Hl|].
  - intros E. rewrite E in Hl. rewrite length_map in Hl.
    destruct r; [contradiction | discriminate].
  - apply normalised_zero; [exact Hr|]. unfold row_norm.
    rewrite sum_squares_zero by exact Hr. reflexivity.
Qed.

Lemma float_le_nan_r x : float_le x S754_nan = false.
Proof. unfold float_le. cbn. rewrite andb_false_r. reflexivity. Qed.

Lemma kept_not_nan a thr idxs i :
  item a i = S754_nan -> i ∉ kept a thr idxs.
Proof.
  intros Hi Hin. apply list_elem_of_In, filter_In in Hin as [_ H].
  rewrite Hi, float_le_nan_r in H. discriminate.
Qed.

Lemma kept_all_nan a thr idxs : all_nan a -> kept a thr idxs = [].
Proof.
  intros Ha. destruct (kept a thr idxs) as [|i l] eqn:E; [reflexivity|].
  exfalso. apply (kept_not_nan a thr idxs i); [|rewrite E; left].
  unfold item. destruct (a !! i) as [x|] eqn:Hx; [|reflexivity]. cbn.
  unfold all_nan in Ha. rewrite Forall_forall in Ha.
  eapply Ha, list_elem_of_lookup_2, Hx.
Qed.

(** C6, as the code has it: the search always returns, and no result has
    a NaN score, because the threshold test is false for NaN. A zero query
    vector of positive dimension gives the empty result. A stored zero
    vector of positive dimension has similarity NaN, not 0, and is never
    among the positions returned. *)
Theorem search_excludes_nan w q k thr :
  exists results out,
    search_similar w q k thr = Returned results w out
    /\ Forall (fun r => is_nan (score r) = false) results
    /\ (q <> [] -> all_zero q -> results = [])
    /\ (forall sims i v,
          cosine_similarities (db w) q = OK sims ->
          embeddings (db w) !! i = Some v ->
          values v <> [] -> all_zero (values v) ->
          item sims i = S754_nan
          /\ i ∉ kept sims thr (top_indices sims k)).
Proof.
  destruct (search_similar_results w q k thr)
    as (results & out & Hs & Hcases).
  exists results, out. split; [exact Hs|]. split; [|split].
  - destruct Hcases as [->|(sims & Hc & Hb)]; [constructor|].
    pose proof (built_scores _ _ _ _ Hb) as Hsc.
    assert (H : Forall (fun s => is_nan s = false) (map score results)).
    { rewrite Hsc. apply Forall_fmap.
      eapply Forall_impl; [apply (kept_passes sims thr)|].
      cbn. intros i Hi. destruct (item sims i); try reflexivity.
      rewrite float_le_nan_r in Hi. discriminate. }
    apply Forall_fmap in H. exact H.
  - intros Hq Hz. destruct Hcases as [->|(sims & Hc & Hb)]; [reflexivity|].
    rewrite (kept_all_nan sims thr) in Hb
      by (eapply zero_query_similarities; eassumption).
    inversion Hb. reflexivity.
  - intros sims i v Hc Hi Hne Hz.
    assert (Hn : item sims i = S754_nan)
      by (eapply zero_row_similarity; eassumption).
    split; [exact Hn | apply kept_not_nan, Hn].
Qed.

(** C2 as stated fails for a negative [top_k]: the slice [[:top_k]] then
    drops entries from the end of the ranking instead of keeping none, and
    the search returns two results for [top_k = -1]. *)
Lemma search_negative_top_k_counterexample :
  exists results out,
    search_similar store_three [py_float 1; py_float 0] (-1) tenth
    = Returned results store_three out
    /\ length results = 2%nat
    /\ ~ (len results <= -1).
Proof.
  eexists _, _. split; [vm_compute; reflexivity|].
  split; [reflexivity|]. unfold len. cbn. lia.
Qed.

Lemma search_top_k_then_threshold_witness :
  0 <= 1
  /\ exists results out,
       search_similar store_three [py_float 1; py_float 0] 1 tenth
       = Returned results store_three out
       /\ len results <= 1
       /\ Forall (fun r => float_le tenth (score r) = true
                           /\ float_lt (score r) tenth = false) results.
Proof.
  split; [lia|].
  destruct (search_top_k_then_threshold store_three
              [py_float 1; py_float 0] 1 tenth)
    as (results & out & Hs & Hlen & Hthr & _); [lia|].
  exists results, out. auto.
Defined.


(** C6 as stated fails: the similarity of the stored zero vector is NaN,
    not 0; it is ranked first and takes the only place of [top_k = 1], so
    the search returns nothing although the second entry has similarity 1
    and passes the threshold. *)
Lemma search_zero_vector_counterexample :
  exists one,
    cosine_similarities (db store_zero) [py_float 1; py_float 0]
    = OK [S754_nan; one]
    /\ float_le tenth one = true
    /\ top_indices [S754_nan; one] 1 = [0%nat]
    /\ search_similar store_zero [py_float 1; py_float 0] 1 tenth
       = Returned [] store_zero [MsgFound 0].
Proof.
  eexists. split; [vm_compute; reflexivity|].
  repeat split; vm_compute; reflexivity.
Qed.

Lemma search_excludes_nan_witness :
  ([py_float 0; py_float 0] <> [] /\ all_zero [py_float 0; py_float 0])
  /\ exists results out,
       search_similar store_zero [py_float 0; py_float 0] 2 tenth
       = Returned results store_zero out
       /\ results = [].
Proof.
  assert (Hne : [py_float 0; py_float 0] <> []) by discriminate.
  assert (Hz : all_zero [py_float 0; py_float 0])
    by (repeat constructor).
  split; [split; assumption|].
  destruct (search_excludes_nan store_zero [py_float 0; py_float 0] 2 tenth)
    as (results & out & Hs & _ & Hq & _).
  exists results, out. split; [exact Hs | apply Hq; assumption].
Defined.

End Search.

(** * Further properties *)

(** ** The shape of the chunks *)

Section StripFacts.

Lemma lstrip_all_space s : all_space s -> lstrip s = [].
Proof. induction 1 as [|c s Hc _ IH]; cbn; [reflexivity|]. rewrite Hc. exact IH. Qed.

Lemma strip_all_space s : all_space s -> strip s = [].
Proof. intros H. unfold strip, rstrip. rewrite (lstrip_all_space s H). reflexivity. Qed.

Lemma lstrip_edge_ok s : edge_ok s -> lstrip s = s.
Proof. destruct s as [|c s]; cbn; [reflexivity|]. intros ->. reflexivity. Qed.

Lemma edge_ok_lstrip s : edge_ok (lstrip s).
Proof.
  induction s as [|c s IH]; cbn; [exact I|].
  destruct (isspace c) eqn:E; [exact IH | exact E].
Qed.

Lemma lstrip_suffix s : exists p, s = p ++ lstrip s.
Proof.
  induction s as [|c s [p IH]]; cbn.
  - exists []. reflexivity.
  - destruct (isspace c).
    + exists (c :: p). cbn. f_equal. exact IH.
    + exists []. reflexivity.
Qed.

Lemma rstrip_prefix s : exists q, s = rstrip s ++ q.
Proof.
  unfold rstrip. destruct (lstrip_suffix (reverse s)) as [p Hp].
  exists (reverse p). rewrite <- reverse_app, <- Hp, reverse_involutive. reflexivity.
Qed.

Lemma edge_ok_prefix s q : edge_ok (s ++ q) -> edge_ok s.
Proof. destruct s; cbn; auto. Qed.

Lemma strip_trimmed_result s : trimmed (strip s).
Proof.
  unfold strip. split.
  - destruct (rstrip_prefix (lstrip s)) as [q Hq].
    apply (edge_ok_prefix _ q). rewrite <- Hq. apply edge_ok_lstrip.
  - unfold rstrip. rewrite reverse_involutive. apply edge_ok_lstrip.
Qed.

Lemma strip_trimmed s : trimmed s -> strip s = s.
Proof.
  intros [H1 H2]. unfold strip, rstrip.
  rewrite (lstrip_edge_ok s H1), (lstrip_edge_ok _ H2). apply reverse_involutive.
Qed.

Lemma strip_idempotent s : strip (strip s) = strip s.
Proof. apply strip_trimmed, strip_trimmed_result. Qed.

Lemma lstrip_length s : (length (lstrip s) <= length s)%nat.
Proof.
  destruct (lstrip_suffix s) as [p Hp]. rewrite Hp at 2. rewrite length_app. lia.
Qed.

Lemma strip_length s : len (strip s) <= len s.
Proof.
  unfold strip, rstrip, len. rewrite length_reverse.
  pose proof (lstrip_length (reverse (lstrip s))) as H1.
  rewrite length_reverse in H1. pose proof (lstrip_length s). lia.
Qed.

Lemma trimmed_join a sep b :
  trimmed a -> trimmed b -> a <> [] -> b <> [] -> trimmed (a ++ sep ++ b).
Proof.
  intros [Ha _] [_ Hb] Hna Hnb. split.
  - destruct a; [contradiction|]. exact Ha.
  - rewrite !reverse_app.
    destruct (reverse b) as [|c r] eqn:E.
    + apply (f_equal reverse) in E. rewrite reverse_involutive in E. contradiction.
    + exact Hb.
Qed.

Lemma truthy_true (s : str) : truthy s = true <-> s <> [].
Proof. destruct s; cbn; split; intros; congruence. Qed.

Lemma no_space_trimmed s : no_space s -> trimmed s.
Proof.
  intros H. split.
  - destruct H; [exact I | assumption].
  - assert (H' : no_space (reverse s)).
    { apply Forall_forall. intros c Hc. rewrite elem_of_reverse in Hc.
      unfold no_space in H. rewrite Forall_forall in H. apply H, Hc. }
    destruct H'; [exact I | assumption].
Qed.

End StripFacts.

Section ChunkerShape.
Import DocumentProcessor.
Variable self : SimpleDocumentProcessor.
Variable source : str.

Lemma force_loop_emitted text starts : forall cs i,
  Forall (emitted source) cs ->
  Forall (emitted source) (force_loop self source text starts cs i).
Proof.
  induction starts as [|s starts IH]; intros cs i Hcs; cbn; [exact Hcs|].
  destruct (truthy _) eqn:E; [|apply IH, Hcs].
  apply IH. apply Forall_app. split; [exact Hcs|].
  constructor; [|constructor]. eexists _, _. split; [reflexivity|].
  apply truthy_true, E.
Qed.

Lemma force_split_emitted text start cs :
  _force_split_text self source text start = OK cs ->
  Forall (emitted source) cs.
Proof.
  unfold _force_split_text. unfold_res.
  destruct (range0 _ _); [|discriminate]. intros [= <-].
  apply force_loop_emitted. constructor.
Qed.

Lemma flush_tidy st : tidy source st -> tidy source (flush source st).
Proof.
  intros [Hc Ht]. unfold flush. destruct (truthy _) eqn:E; [|split; assumption].
  split; [|exact Ht]. cbn. apply Forall_app. split; [exact Hc|].
  constructor; [|constructor]. eexists _, _. split; [reflexivity|].
  rewrite (strip_trimmed _ Ht). apply truthy_true, E.
Qed.

Lemma tidy_accumulate st sep piece :
  tidy source st -> truthy (strip piece) = true ->
  tidy source {| chunks := chunks st;
          current_chunk :=
            if truthy (current_chunk st)
            then current_chunk st ++ sep ++ strip piece
            else strip piece;
          chunk_id := chunk_id st |}.
Proof.
  intros [Hc Ht] Hp. split; [exact Hc|]. cbn.
  destruct (truthy (current_chunk st)) eqn:E.
  - apply trimmed_join; [exact Ht | apply strip_trimmed_result | |];
      apply truthy_true; assumption.
  - apply strip_trimmed_result.
Qed.

Lemma sentence_step_tidy st sentence st' :
  tidy source st -> sentence_step self source st sentence = OK st' -> tidy source st'.
Proof.
  intros Hw. unfold sentence_step.
  destruct (truthy (strip sentence)) eqn:Hp; cbn [negb];
    [|intros [= <-]; exact Hw].
  destruct (_ <? _);
    [intros [= <-]; exact (tidy_accumulate st (lit " ") sentence Hw Hp)|].
  apply flush_tidy in Hw. destruct Hw as [Hc Ht].
  destruct (_ <? _).
  - unfold_res.
    destruct (_force_split_text _ _ _ _) as [more|] eqn:Hf; [|discriminate].
    intros [= <-]. split; cbn; [|split; exact I].
    apply Forall_app. split; [exact Hc | eapply force_split_emitted, Hf].
  - intros [= <-]. split; [exact Hc | apply strip_trimmed_result].
Qed.

Lemma sentence_loop_tidy sentences : forall st st',
  tidy source st -> sentence_loop self source sentences st = OK st' -> tidy source st'.
Proof.
  induction sentences as [|s rest IH]; intros st st' Hw; cbn.
  - intros [= <-]. exact Hw.
  - unfold_res.
    destruct (sentence_step _ _ _ _) as [st1|] eqn:H1; [|discriminate].
    apply IH. eapply sentence_step_tidy; eassumption.
Qed.

Lemma split_long_text_emitted text start cs :
  _split_long_text self source text start = OK cs ->
  Forall (emitted source) cs.
Proof.
  unfold _split_long_text. unfold_res.
  destruct (sentence_loop _ _ _ _) as [st|] eqn:Hl; [|discriminate].
  intros [= <-].
  eapply flush_tidy, sentence_loop_tidy; [|exact Hl].
  split; [constructor | split; exact I].
Qed.

Lemma paragraph_step_tidy st para st' :
  tidy source st -> paragraph_step self source st para = OK st' -> tidy source st'.
Proof.
  intros Hw. unfold paragraph_step.
  destruct (truthy (strip para)) eqn:Hp; cbn [negb];
    [|intros [= <-]; exact Hw].
  destruct (_ <? _);
    [intros [= <-]; exact (tidy_accumulate st [10%N; 10%N] para Hw Hp)|].
  apply flush_tidy in Hw. destruct Hw as [Hc Ht].
  destruct (_ <? _).
  - unfold_res.
    destruct (_split_long_text _ _ _ _) as [more|] eqn:Hf; [|discriminate].
    intros [= <-]. split; cbn; [|split; exact I].
    apply Forall_app. split; [exact Hc | eapply split_long_text_emitted, Hf].
  - intros [= <-]. split; [exact Hc | apply strip_trimmed_result].
Qed.

Lemma paragraph_loop_tidy paragraphs : forall st st',
  tidy source st -> paragraph_loop self source paragraphs st = OK st' -> tidy source st'.
Proof.
  induction paragraphs as [|p rest IH]; intros st st' Hw; cbn.
  - intros [= <-]. exact Hw.
  - unfold_res.
    destruct (paragraph_step _ _ _ _) as [st1|] eqn:H1; [|discriminate].
    apply IH. eapply paragraph_step_tidy; eassumption.
Qed.

Lemma smart_chunk_text_emitted text cs :
  smart_chunk_text self source text = OK cs -> Forall (emitted source) cs.
Proof.
  unfold smart_chunk_text. unfold_res.
  destruct (paragraph_loop _ _ _ _) as [st|] eqn:Hl; [|discriminate].
  intros [= <-].
  eapply flush_tidy, paragraph_loop_tidy; [|exact Hl].
  split; [constructor | split; exact I].
Qed.

(** Every chunk holds a non-empty text without leading or trailing
    whitespace, not longer than its [char_count], and [char_end] repeats
    [char_count]. *)
Theorem chunk_texts_stripped text cs :
  smart_chunk_text self source text = OK cs ->
  Forall (fun c : gmap string pyval =>
            exists s n,
              c !! "text" = Some (VStr s) /\ s <> [] /\ strip s = s
              /\ c !! "char_count" = Some (VInt n) /\ len s <= n
              /\ c !! "char_start" = Some (VInt 0)
              /\ c !! "char_end" = Some (VInt n)) cs.
Proof.
  intros H. eapply Forall_impl; [eapply smart_chunk_text_emitted, H|].
  intros c (t & i & -> & Ht). exists (strip t), (len t).
  unfold _create_chunk.
  split; [by simplify_map_eq|]. split; [exact Ht|].
  split; [apply strip_idempotent|]. split; [by simplify_map_eq|].
  split; [apply strip_length|]. split; by simplify_map_eq.
Qed.

(** Every chunk carries the source it was made for and an identifier made
    of the stem of the source and its own number. *)
Theorem chunk_sources_and_ids text cs :
  smart_chunk_text self source text = OK cs ->
  Forall (fun c : gmap string pyval =>
            c !! "source" = Some (VStr source)
            /\ exists i,
                 c !! "chunk_number" = Some (VInt (Z.of_nat i))
                 /\ c !! "chunk_id"
                    = Some (VStr (path_stem source ++ lit "_chunk_"
                                  ++ format_nat i))) cs.
Proof.
  intros H. eapply Forall_impl; [eapply smart_chunk_text_emitted, H|].
  intros c (t & i & -> & _). unfold _create_chunk.
  split; [by simplify_map_eq|]. exists i. split; by simplify_map_eq.
Qed.

End ChunkerShape.

Section ChunkerEdges.
Import DocumentProcessor.
Variable self : SimpleDocumentProcessor.
Variable source : str.

Lemma split_blank_lines_all_space n : forall text acc,
  (length text <= n)%nat -> all_space acc -> all_space text ->
  Forall all_space (split_blank_lines acc text).
Proof.
  induction n as [|n IH]; intros text acc Hn Hacc Ht.
  - destruct text; [|cbn in Hn; lia]. cbn. constructor; [|constructor].
    apply Forall_reverse, Hacc.
  - destruct text as [|c rest]; cbn [split_blank_lines].
    { constructor; [|constructor]. apply Forall_reverse, Hacc. }
    apply Forall_cons in Ht as [Hc Hrest].
    destruct rest as [|c' rest'].
    { constructor; [|constructor]. apply Forall_reverse. constructor; assumption. }
    destruct ((c =? 10)%N && (c' =? 10)%N).
    + constructor; [apply Forall_reverse, Hacc|].
      apply Forall_cons in Hrest as [_ Hrest'].
      apply IH; [cbn in Hn; lia | constructor | exact Hrest'].
    + apply IH; [cbn in *; lia | constructor; assumption | exact Hrest].
Qed.

Lemma paragraph_loop_blank paragraphs st :
  Forall all_space paragraphs ->
  paragraph_loop self source paragraphs st = OK st.
Proof.
  induction 1 as [|p ps Hp _ IH]; cbn; [reflexivity|].
  unfold paragraph_step. rewrite (strip_all_space p Hp). cbn. exact IH.
Qed.

Lemma blank_text_chunks text :
  all_space text -> smart_chunk_text self source text = OK [].
Proof.
  intros Ht. unfold smart_chunk_text.
  rewrite paragraph_loop_blank; [reflexivity|].
  apply (split_blank_lines_all_space (length text)); [lia | constructor | exact Ht].
Qed.

Lemma split_blank_lines_one_line text : forall acc,
  10%N ∉ text -> split_blank_lines acc text = [reverse acc ++ text].
Proof.
  induction text as [|c rest IH]; intros acc Hnl; cbn [split_blank_lines].
  - rewrite app_nil_r. reflexivity.
  - destruct rest as [|c' rest'].
    + rewrite reverse_cons. reflexivity.
    + destruct (N.eqb_spec c 10) as [->|Hc].
      { exfalso. apply Hnl. left. }
      cbn [andb]. rewrite IH.
      * rewrite reverse_cons, <- app_assoc. reflexivity.
      * intros H. apply Hnl. right. exact H.
Qed.

Lemma re_split_no_space text : forall b acc,
  no_space text ->
  re_split_sentences false b acc text = [reverse acc ++ text].
Proof.
  induction text as [|c rest IH]; intros b acc Hs; cbn [re_split_sentences].
  - rewrite app_nil_r. reflexivity.
  - apply Forall_cons in Hs as [Hc Hrest]. rewrite Hc, IH by exact Hrest.
    rewrite reverse_cons, <- app_assoc. reflexivity.
Qed.

Lemma no_space_no_newline text : no_space text -> 10%N ∉ text.
Proof.
  intros Hs Hin. unfold no_space in Hs. rewrite Forall_forall in Hs.
  specialize (Hs _ Hin). discriminate Hs.
Qed.

Lemma split_long_token text start :
  no_space text -> text <> [] -> chunk_size self < len text ->
  _split_long_text self source text start
  = _force_split_text self source text start.
Proof.
  intros Hs Hne Hlen.
  assert (Hstrip : strip text = text)
    by (apply strip_trimmed, no_space_trimmed, Hs).
  apply truthy_true in Hne.
  unfold _split_long_text. rewrite re_split_no_space by exact Hs.
  change (reverse [] ++ text) with text.
  cbn [sentence_loop]. unfold sentence_step.
  rewrite Hstrip, Hne. cbn [negb current_chunk].
  destruct (Z.ltb_spec (len (@nil N) + len text) (chunk_size self)) as [H|_];
    [unfold len in *; cbn in H; lia|].
  unfold flush. cbn [current_chunk truthy chunks chunk_id].
  destruct (Z.ltb_spec (chunk_size self) (len text)) as [_|H]; [|lia].
  unfold_res.
  destruct (_force_split_text self source text start) as [cs|e]; reflexivity.
Qed.

Lemma long_token_forced_eq text :
  no_space text -> text <> [] -> chunk_size self < len text ->
  smart_chunk_text self source text = _force_split_text self source text 0.
Proof.
  intros Hs Hne Hlen.
  assert (Hstrip : strip text = text)
    by (apply strip_trimmed, no_space_trimmed, Hs).
  pose proof Hne as Hne'. apply truthy_true in Hne'.
  unfold smart_chunk_text.
  rewrite split_blank_lines_one_line by (apply no_space_no_newline, Hs).
  change (reverse [] ++ text) with text.
  cbn [paragraph_loop]. unfold paragraph_step.
  rewrite Hstrip, Hne'. cbn [negb current_chunk].
  destruct (Z.ltb_spec (len (@nil N) + len text) (chunk_size self)) as [H|_];
    [unfold len in *; cbn in H; lia|].
  unfold flush. cbn [current_chunk truthy chunks chunk_id].
  destruct (Z.ltb_spec (chunk_size self) (len text)) as [_|H]; [|lia].
  rewrite split_long_token by assumption.
  unfold_res.
  destruct (_force_split_text self source text 0) as [cs|e]; reflexivity.
Qed.

(** A text of one line whose stripped form is not empty and shorter than
    [chunk_size] gives exactly one chunk, numbered 0, made of the stripped
    text. *)
Theorem short_line_one_chunk text :
  10%N ∉ text -> strip text <> [] -> len (strip text) < chunk_size self ->
  smart_chunk_text self source text
  = OK [_create_chunk (strip text) 0 source].
Proof.
  intros Hnl Hne Hlen. apply truthy_true in Hne.
  unfold smart_chunk_text.
  rewrite split_blank_lines_one_line by exact Hnl.
  change (reverse [] ++ text) with text.
  cbn [paragraph_loop]. unfold paragraph_step.
  rewrite Hne. cbn [negb current_chunk].
  destruct (Z.ltb_spec (len (@nil N) + len (strip text)) (chunk_size self))
    as [_|H]; [|unfold len in *; cbn in H; lia].
  cbn [truthy]. unfold_res. unfold flush.
  cbn [current_chunk chunks chunk_id]. rewrite Hne. reflexivity.
Qed.

Lemma force_loop_length text starts : forall cs i,
  (length (force_loop self source text starts cs i)
   <= length cs + length starts)%nat.
Proof.
  induction starts as [|s starts IH]; intros cs i; cbn; [lia|].
  destruct (truthy _).
  - etransitivity; [apply IH|]. rewrite length_app. cbn. lia.
  - etransitivity; [apply IH|]. lia.
Qed.

(** The three cases of the forced split, by the sign of the stride
    [chunk_size - overlap]: zero raises [ValueError], a negative stride
    gives no chunk at all, and a positive stride gives at most
    [ceil(len(text) / stride)] chunks. *)
Theorem force_split_by_stride text start :
  (chunk_size self = overlap self ->
   _force_split_text self source text start = Raise ValueError_range_step)
  /\ (chunk_size self < overlap self ->
      _force_split_text self source text start = OK [])
  /\ (overlap self < chunk_size self ->
      exists cs,
        _force_split_text self source text start = OK cs
        /\ len cs
           <= (len text + (chunk_size self - overlap self) - 1)
              / (chunk_size self - overlap self)).
Proof.
  unfold _force_split_text, range0. split; [|split]; intros H.
  - destruct (Z.eqb_spec (chunk_size self - overlap self) 0); [reflexivity | lia].
  - destruct (Z.eqb_spec (chunk_size self - overlap self) 0); [lia|].
    destruct (Z.ltb_spec (chunk_size self - overlap self) 0); [reflexivity | lia].
  - destruct (Z.eqb_spec (chunk_size self - overlap self) 0); [lia|].
    destruct (Z.ltb_spec (chunk_size self - overlap self) 0); [lia|].
    eexists. split; [reflexivity|].
    pose proof (force_loop_length text
      (map (fun k => Z.of_nat k * (chunk_size self - overlap self))
           (seq 0 (Z.to_nat ((len text + (chunk_size self - overlap self) - 1)
                             / (chunk_size self - overlap self)))))
      [] start) as Hl.
    rewrite length_map, length_seq in Hl. cbn [length] in Hl.
    unfold len at 1.
    assert (0 <= (len text + (chunk_size self - overlap self) - 1)
                 / (chunk_size self - overlap self)).
    { apply Z.div_pos; unfold len; lia. }
    lia.
Qed.

Lemma force_loop_length_exact text starts : forall cs i,
  Forall (fun s => truthy (strip (slice text s (s + chunk_size self))) = true)
         starts ->
  length (force_loop self source text starts cs i)
  = (length cs + length starts)%nat.
Proof.
  induction starts as [|s starts IH]; intros cs i Hs; cbn; [lia|].
  apply Forall_cons in Hs as [H1 Hs]. rewrite H1, IH by exact Hs.
  rewrite length_app. cbn. lia.
Qed.

Lemma window_not_blank text i :
  no_space text -> 0 < chunk_size self -> 0 <= i < len text ->
  truthy (strip (slice text i (i + chunk_size self))) = true.
Proof.
  intros Hs Hn Hi.
  assert (Hw : no_space (slice text i (i + chunk_size self))).
  { unfold slice. apply Forall_take, Forall_drop, Hs. }
  rewrite (strip_trimmed _ (no_space_trimmed _ Hw)).
  apply truthy_true. intros E. apply (f_equal length) in E.
  unfold slice, slice_index, len in *. rewrite length_take, length_drop in E.
  cbn [length] in E.
  destruct (Z.ltb_spec i 0); [lia|].
  destruct (Z.ltb_spec (i + chunk_size self) 0); lia.
Qed.

Lemma range0_below stop step starts :
  range0 stop step = OK starts -> Forall (fun s => 0 <= s < stop) starts.
Proof.
  unfold range0. destruct (Z.eqb_spec step 0); [discriminate|].
  destruct (Z.ltb_spec step 0); intros [= <-]; [constructor|].
  apply Forall_forall. intros x Hx.
  apply list_elem_of_In, in_map_iff in Hx as (k & <- & Hk).
  apply in_seq in Hk.
  assert (Hdiv : step * ((stop + step - 1) / step) <= stop + step - 1)
    by (apply Z.mul_div_le; lia).
  destruct (Z_lt_le_dec ((stop + step - 1) / step) 0) as [Hneg|Hpos].
  - lia.
  - assert (Hk' : Z.of_nat k <= (stop + step - 1) / step - 1) by lia.
    nia.
Qed.

(** A token without whitespace of [n] characters, longer than
    [chunk_size], with [0 <= overlap < chunk_size], is cut into exactly
    [ceil(n / (chunk_size - overlap))] windows of at most [chunk_size]
    characters each. *)
Theorem long_token_window_count text :
  no_space text -> overlap self < chunk_size self -> 0 < chunk_size self ->
  chunk_size self < len text ->
  exists cs,
    smart_chunk_text self source text = OK cs
    /\ len cs = (len text + (chunk_size self - overlap self) - 1)
                / (chunk_size self - overlap self)
    /\ bounded (chunk_size self) cs.
Proof.
  intros Hs Ho Hn Hlen.
  assert (Hne : text <> []).
  { intros ->. unfold len in Hlen. cbn in Hlen. lia. }
  rewrite long_token_forced_eq by assumption.
  destruct (_force_split_text self source text 0) as [cs|e] eqn:Hf.
  2:{ exfalso. revert Hf. unfold _force_split_text, range0.
      destruct (Z.eqb_spec (chunk_size self - overlap self) 0); [lia|].
      destruct (Z.ltb_spec (chunk_size self - overlap self) 0); discriminate. }
  exists cs. split; [reflexivity|].
  split; [|eapply force_split_bounded; [lia | exact Hf]].
  revert Hf. unfold _force_split_text. unfold_res.
  destruct (range0 _ _) as [starts|] eqn:Hr; [|discriminate].
  intros [= <-]. unfold len at 1.
  rewrite force_loop_length_exact.
  - revert Hr. unfold range0.
    destruct (Z.eqb_spec (chunk_size self - overlap self) 0); [lia|].
    destruct (Z.ltb_spec (chunk_size self - overlap self) 0); [lia|].
    intros [= <-]. rewrite length_map, length_seq. cbn [length].
    assert (0 <= (len text + (chunk_size self - overlap self) - 1)
                 / (chunk_size self - overlap self)).
    { apply Z.div_pos; unfold len; lia. }
    lia.
  - eapply Forall_impl; [eapply range0_below, Hr|].
    cbn. intros i Hi. apply window_not_blank; assumption.
Qed.

End ChunkerEdges.

(** ** Ranking, errors and persistence of the store *)

Section Ranking.
Import VectorDB.

Lemma insert_index_perm a i l : insert_index a i l ≡ₚ i :: l.
Proof.
  induction l as [|j l IH]; cbn; [reflexivity|].
  destruct (sort_lt _ _); [|reflexivity].
  rewrite IH. apply Permutation_swap.
Qed.

Lemma argsort_from_perm a n : forall start,
  foldr (insert_index a) [] (seq start n) ≡ₚ seq start n.
Proof.
  induction n as [|n IH]; intros start; cbn; [reflexivity|].
  rewrite insert_index_perm, IH. reflexivity.
Qed.

Lemma argsort_perm a : argsort a ≡ₚ seq 0 (length a).
Proof. apply argsort_from_perm. Qed.

Lemma argsort_length a : length (argsort a) = length a.
Proof. rewrite (Permutation_length (argsort_perm a)). apply length_seq. Qed.

Lemma top_indices_NoDup a k : NoDup (top_indices a k).
Proof.
  unfold top_indices. eapply sublist_NoDup; [|apply slice_sublist].
  rewrite reverse_Permutation, argsort_perm. apply NoDup_seq.
Qed.

Lemma top_indices_range a k i :
  i ∈ top_indices a k -> (i < length a)%nat.
Proof.
  unfold top_indices. intros H.
  eapply elem_of_sublist in H; [|apply slice_sublist].
  rewrite elem_of_reverse, argsort_perm in H.
  apply elem_of_seq in H. lia.
Qed.

Lemma top_indices_all a k i :
  len a <= k -> (i < length a)%nat -> i ∈ top_indices a k.
Proof.
  intros Hk Hi.
  assert (Hall : top_indices a k = reverse (argsort a)).
  { unfold top_indices, slice, slice_index, len in *.
    rewrite length_reverse, argsort_length.
    change (0 <? 0) with false. cbv iota.
    destruct (Z.ltb_spec k 0) as [Hneg|Hpos]; [lia|].
    rewrite (Z.min_l 0) by lia. rewrite (Z.min_r k) by lia.
    change (Z.to_nat 0) with 0%nat. rewrite drop_0, Z.sub_0_r, Nat2Z.id.
    apply take_ge. rewrite length_reverse, argsort_length. lia. }
  rewrite Hall, elem_of_reverse, argsort_perm. apply elem_of_seq. lia.
Qed.

Lemma kept_elem a thr idxs i :
  i ∈ kept a thr idxs <-> i ∈ idxs /\ float_le thr (item a i) = true.
Proof. unfold kept. rewrite !list_elem_of_In, filter_In. reflexivity. Qed.

Lemma kept_NoDup a thr idxs : NoDup idxs -> NoDup (kept a thr idxs).
Proof. intros H. eapply sublist_NoDup; [exact H | apply kept_sublist]. Qed.

Lemma cosine_similarities_length self q sims :
  cosine_similarities self q = OK sims ->
  length sims = length (embeddings self).
Proof.
  unfold cosine_similarities. unfold_res.
  destruct (array2 _) as [stored|] eqn:Ha; [|discriminate].
  apply array2_rows in Ha. subst stored.
  intros H. apply matvec_rows in H as [-> _].
  rewrite !length_map. reflexivity.
Qed.

(** The results of a search are built from distinct positions of the
    store, each within range and passing the threshold test; when [top_k]
    is at least the number of stored entries, every position that passes
    the test is among them. *)
Theorem search_positions w q k thr :
  exists results out,
    search_similar w q k thr = Returned results w out
    /\ (results = []
        \/ exists sims idxs,
             cosine_similarities (db w) q = OK sims
             /\ length sims = length (embeddings (db w))
             /\ Forall2 (built (db w) sims) results idxs
             /\ NoDup idxs
             /\ (forall i, i ∈ idxs ->
                   (i < length sims)%nat /\ float_le thr (item sims i) = true)
             /\ (len sims <= k -> forall i,
                   (i < length sims)%nat -> float_le thr (item sims i) = true ->
                   i ∈ idxs)).
Proof.
  destruct (search_similar_results w q k thr)
    as (results & out & Hs & [->|(sims & Hc & Hb)]).
  { exists [], out. split; [exact Hs | left; reflexivity]. }
  exists results, out. split; [exact Hs|]. right.
  exists sims, (kept sims thr (top_indices sims k)).
  split; [exact Hc|]. split; [eapply cosine_similarities_length, Hc|].
  split; [exact Hb|]. split; [apply kept_NoDup, top_indices_NoDup|]. split.
  - intros i Hi. apply kept_elem in Hi as [Hi Hp].
    split; [eapply top_indices_range, Hi | exact Hp].
  - intros Hk i Hi Hp. apply kept_elem. split; [|exact Hp].
    apply top_indices_all; assumption.
Qed.

End Ranking.

Section StoreBehaviour.
Import VectorDB.

Lemma array2_mixed rows u v :
  u ∈ rows -> v ∈ rows -> dim u <> dim v ->
  array2 rows = Raise ValueError_inhomogeneous.
Proof.
  intros Hu Hv Hne. destruct rows as [|r rest]; [inversion Hu|].
  cbn [array2]. destruct (forallb _ rest) eqn:Hall; [|reflexivity].
  exfalso. rewrite forallb_forall in Hall.
  assert (Hd : forall x, x ∈ r :: rest -> dim x = dim r).
  { intros x Hx. apply elem_of_cons in Hx as [->|Hx]; [reflexivity|].
    apply Nat.eqb_eq, Hall, list_elem_of_In, Hx. }
  apply Hne. rewrite (Hd u Hu), (Hd v Hv). reflexivity.
Qed.

Lemma array2_same_dim rows d :
  Forall (fun v => dim v = d) rows -> array2 rows = OK (map as_float32 rows).
Proof.
  intros H. destruct rows as [|r rest]; [reflexivity|]. cbn [array2].
  apply Forall_cons in H as [Hr Hrest].
  replace (forallb _ rest) with true; [reflexivity|].
  symmetry. apply forallb_forall. intros x Hx.
  rewrite Forall_forall in Hrest. apply Nat.eqb_eq.
  rewrite Hr. apply Hrest, list_elem_of_In, Hx.
Qed.

Lemma as_float32_length v : length (as_float32 v) = dim v.
Proof. destruct v; cbn; [reflexivity | apply length_map]. Qed.

(** Once the store holds two vectors of different dimensionality, every
    search returns the empty list: the conversion of the stored vectors
    to one array raises, and the exception is caught and printed. *)
Theorem search_mixed_store_empty w q k thr u v :
  u ∈ embeddings (db w) -> v ∈ embeddings (db w) -> dim u <> dim v ->
  search_similar w q k thr
  = Returned [] w [MsgSearchFailed ValueError_inhomogeneous].
Proof.
  intros Hu Hv Hne. unfold search_similar.
  destruct (embeddings (db w)) as [|e es] eqn:He; [inversion Hu|].
  unfold search_try, cosine_similarities. rewrite He.
  rewrite (array2_mixed (e :: es) u v Hu Hv Hne). reflexivity.
Qed.

(** A query whose dimension differs from that of the stored vectors gives
    the empty list, not an error: the product of the array with the query
    raises, and the exception is caught and printed. *)
Theorem search_wrong_dimension_empty w q k thr d :
  embeddings (db w) <> [] ->
  Forall (fun v => dim v = d) (embeddings (db w)) ->
  length q <> d ->
  search_similar w q k thr
  = Returned [] w [MsgSearchFailed ValueError_not_aligned].
Proof.
  intros Hne Hd Hq. unfold search_similar.
  destruct (embeddings (db w)) as [|e es] eqn:He; [contradiction|].
  unfold search_try, cosine_similarities. rewrite He.
  rewrite (array2_same_dim (e :: es) d Hd). unfold_res.
  unfold matvec. cbn [map forallb].
  rewrite !length_map, as_float32_length.
  apply Forall_cons in Hd as [<- _].
  destruct (Nat.eqb_spec (dim e) (length q)) as [E|_]; [congruence|].
  reflexivity.
Qed.

Lemma cosine_same_dim self q d :
  Forall (fun v => dim v = d) (embeddings self) -> length q = d ->
  exists sims, cosine_similarities self q = OK sims.
Proof.
  intros Hd Hq. unfold cosine_similarities.
  rewrite (array2_same_dim _ d Hd). unfold_res. unfold matvec.
  replace (forallb _ _) with true; [eexists; reflexivity|].
  symmetry. apply forallb_forall. intros r Hr.
  apply in_map_iff in Hr as (r' & <- & Hr').
  apply in_map_iff in Hr' as (v & <- & Hv).
  rewrite Forall_forall in Hd.
  rewrite !length_map, as_float32_length.
  apply Nat.eqb_eq. rewrite Hq. apply Hd, list_elem_of_In, Hv.
Qed.

Lemma make_result_well_formed self a i :
  well_formed self -> (i < length (embeddings self))%nat ->
  exists r, built self a r i /\ exists s, source r = VStr s.
Proof.
  intros [[Hce Hem] Hc] Hi. unfold built, make_result, list_item, getitem.
  destruct (lookup_lt_is_Some_2 (chunks self) i) as [c Hci]; [lia|].
  destruct (lookup_lt_is_Some_2 (metadata self) i) as [m Hmi]; [lia|].
  rewrite Forall_forall in Hc.
  destruct (Hc c (list_elem_of_lookup_2 _ _ _ Hci)) as ([t Ht] & [s Hs] & [ci Hid]).
  rewrite Hci, Hmi. unfold_res. rewrite Ht, Hs, Hid.
  eexists. split; [reflexivity|]. exists s. reflexivity.
Qed.

Lemma result_loop_well_formed self a thr idxs : forall acc,
  well_formed self ->
  Forall (fun i => (i < length (embeddings self))%nat) idxs ->
  Forall (fun r => exists s, source r = VStr s) acc ->
  exists rs,
    result_loop self a thr idxs acc = OK rs
    /\ Forall (fun r => exists s, source r = VStr s) rs.
Proof.
  induction idxs as [|i idxs IH]; intros acc Hw Hi Hacc; cbn.
  - exists acc. split; [reflexivity | exact Hacc].
  - apply Forall_cons in Hi as [Hi Hrest].
    destruct (float_le thr (item a i)); [|apply IH; assumption].
    destruct (make_result_well_formed self a i Hw Hi) as (r & Hr & Hs).
    unfold built in Hr. rewrite Hr. unfold_res.
    apply IH; [assumption | assumption |].
    apply Forall_app. split; [exact Hacc | constructor; [exact Hs | constructor]].
Qed.

Lemma report_strings rs :
  Forall (fun r => exists s, source r = VStr s) rs -> report rs = OK tt.
Proof.
  induction 1 as [|r rs [s Hs] _ IH]; cbn; [reflexivity|].
  rewrite Hs. exact IH.
Qed.

(** On a well-formed store (three lists of one length, every chunk with a
    text, a string source and an identifier) whose vectors have the
    dimension of the query, the search takes no error path: it returns
    exactly one result for each of the selected positions, in their
    order. *)
Theorem search_well_formed w q k thr d :
  well_formed (db w) -> embeddings (db w) <> [] ->
  Forall (fun v => dim v = d) (embeddings (db w)) -> length q = d ->
  exists sims results,
    cosine_similarities (db w) q = OK sims
    /\ search_similar w q k thr
       = Returned results w [MsgFound (length results)]
    /\ Forall2 (built (db w) sims) results (kept sims thr (top_indices sims k)).
Proof.
  intros Hw Hne Hd Hq.
  destruct (cosine_same_dim (db w) q d Hd Hq) as [sims Hc].
  assert (Hlen : length sims = length (embeddings (db w)))
    by (eapply cosine_similarities_length, Hc).
  destruct (result_loop_well_formed (db w) sims thr (top_indices sims k) []
              Hw) as (rs & Hl & Hsrc).
  { apply Forall_forall. intros i Hi. rewrite <- Hlen.
    eapply top_indices_range, Hi. }
  { constructor. }
  exists sims, rs. split; [exact Hc|].
  unfold search_similar. destruct (embeddings (db w)); [contradiction|].
  unfold search_try. rewrite Hc. unfold_res. rewrite Hl.
  rewrite report_strings.
  - split; [reflexivity|].
    apply result_loop_kept in Hl as (new & -> & Hnew). exact Hnew.
  - unfold slice. apply Forall_take, Forall_drop, Hsrc.
Qed.

Lemma successful_insert_well_formed write_ok w cs es :
  well_formed (db w) -> Forall complete_chunk cs ->
  successful w (Insert write_ok cs es) = true ->
  well_formed (db (state_after (insert_documents write_ok w cs es))).
Proof.
  intros [Hp Hc] Hcs Hs. split.
  - apply successful_insert_parallel; assumption.
  - apply insert_documents_successful in Hs as (_ & ms & _ & ->).
    cbn. apply Forall_app. split; assumption.
Qed.

End StoreBehaviour.

Section Persistence.
Import VectorDB.

Lemma values_tolist v : values (tolist v) = values v.
Proof. destruct v; reflexivity. Qed.

(** Round trip through the snapshot: after a successful insertion whose
    write was accepted, a new instance created from the file holds the
    same chunks, the same metadata and vectors of the same values, and
    [get_status] gives the same answer on both. *)
Theorem insert_save_load_round_trip w cs es :
  successful w (Insert true cs es) = true ->
  exists w' w2 out,
    state_after (insert_documents true w cs es) = w'
    /\ __init__ (storage_path (db w')) (disk w') = (w2, out)
    /\ chunks (db w2) = chunks (db w')
    /\ metadata (db w2) = metadata (db w')
    /\ map values (embeddings (db w2)) = map values (embeddings (db w'))
    /\ same_answer (get_status w2) (get_status w').
Proof.
  intros Hs. apply insert_documents_successful in Hs as (_ & ms & _ & ->).
  eexists _, _, _. split; [reflexivity|]. split; [reflexivity|].
  cbn. split; [reflexivity|]. split; [reflexivity|]. split.
  - rewrite map_map. apply map_ext. intros v. apply values_tolist.
  - unfold get_status, same_answer. cbn.
    destruct (source_list _); [|reflexivity].
    unfold len. rewrite length_map. reflexivity.
Qed.

(** A clear that returns leaves the three lists empty and no snapshot
    file; clearing again changes nothing and returns normally, and an
    instance created afterwards starts empty. *)
Theorem clear_is_idempotent unlink_ok w r w' out :
  clear_database unlink_ok w = Returned r w' out ->
  chunks (db w') = [] /\ embeddings (db w') = [] /\ metadata (db w') = []
  /\ disk w' = None
  /\ (forall unlink_ok', clear_database unlink_ok' w'
                         = Returned VNone w' [MsgCleared])
  /\ chunks (db (fst (__init__ (storage_path (db w')) (disk w')))) = [].
Proof.
  unfold clear_database.
  destruct (disk w) as [f|]; [destruct unlink_ok; [|discriminate]|];
    intros [= <- <- <-]; repeat split; reflexivity.
Qed.

(** When the snapshot cannot be removed, [clear_database] raises after it
    has emptied the lists in memory; the snapshot stays, and an instance
    created afterwards gets the old entries back. *)
Theorem clear_failure_keeps_snapshot w cs es ms :
  disk w = Some (Pickled cs es ms) ->
  exists w',
    clear_database false w = Raised OSError w' []
    /\ chunks (db w') = [] /\ embeddings (db w') = [] /\ metadata (db w') = []
    /\ chunks (db (fst (__init__ (storage_path (db w')) (disk w')))) = cs
    /\ embeddings (db (fst (__init__ (storage_path (db w')) (disk w')))) = es
    /\ metadata (db (fst (__init__ (storage_path (db w')) (disk w')))) = ms.
Proof.
  intros Hd. unfold clear_database. rewrite Hd.
  eexists. split; [reflexivity|]. repeat split; reflexivity.
Qed.




Lemma metadata_of_ok c m : metadata_of c = OK m -> has_keys c.
Proof.
  unfold metadata_of, getitem, has_keys. unfold_res.
  destruct (c !! "chunk_id"); [|discriminate].
  destruct (c !! "source"); [|discriminate]. intros _. split; eexists; reflexivity.
Qed.

Lemma metadata_of_raises c e : metadata_of c = Raise e -> exists k, e = KeyError k.
Proof.
  unfold metadata_of, getitem. unfold_res.
  destruct (c !! "chunk_id"); [|intros [= <-]; eexists; reflexivity].
  destruct (c !! "source"); [discriminate|intros [= <-]; eexists; reflexivity].
Qed.

Lemma metadata_list_missing cs c :
  c ∈ cs -> ~ has_keys c -> exists k, metadata_list cs = Raise (KeyError k).
Proof.
  induction cs as [|c0 cs IH]; intros Hin Hc; [inversion Hin|].
  cbn. unfold_res. destruct (metadata_of c0) as [m|e] eqn:E.
  - apply metadata_of_ok in E.
    apply elem_of_cons in Hin as [->|Hin]; [contradiction|].
    destruct (IH Hin Hc) as [k ->]. exists k. reflexivity.
  - apply metadata_of_raises in E as [k ->]. exists k. reflexivity.
Qed.

(** An insertion of equal counts and uniform vectors in which some chunk
    lacks [chunk_id] or [source] is not undone: the chunks and the
    vectors are already appended when the [KeyError] is caught, the
    metadata and the snapshot are not touched, and the call returns
    [None]. A store whose three lists had one length loses that
    property. *)
Theorem insert_missing_key_partial write_ok w cs es c :
  length cs = length es -> uniform es -> c ∈ cs -> ~ has_keys c ->
  exists k w',
    insert_documents write_ok w cs es
    = Returned VNone w' [MsgInsertFailed (KeyError k)]
    /\ chunks (db w') = chunks (db w) ++ cs
    /\ embeddings (db w')
       = embeddings (db w) ++ map (fun e => ndarray (map f32_of e)) es
    /\ metadata (db w') = metadata (db w)
    /\ disk w' = disk w
    /\ (parallel (db w) -> ~ parallel (db w')).
Proof.
  intros Hlen Hu Hin Hc.
  destruct (metadata_list_missing cs c Hin Hc) as [k Hk].
  unfold insert_documents, insert_try.
  pose proof Hlen as Hb. apply Nat.eqb_eq in Hb. rewrite Hb. cbn [negb].
  rewrite (array2_uniform es Hu), Hk.
  eexists _, _. split; [reflexivity|]. cbn.
  split; [reflexivity|]. split; [rewrite map_map; reflexivity|].
  split; [reflexivity|]. split; [reflexivity|].
  intros [H1 H2] [H3 H4]. cbn in H3, H4.
  rewrite !length_app, !length_map in *.
  destruct cs; [inversion Hin | cbn in *; lia].
Qed.

End Persistence.

Section ChunkerToStore.
Import VectorDB.

Lemma emitted_complete source c : emitted source c -> complete_chunk c /\ has_keys c.
Proof.
  intros (t & i & -> & _). unfold complete_chunk, has_keys, DocumentProcessor._create_chunk.
  repeat split; try (eexists; by simplify_map_eq).
Qed.

Lemma emitted_chunks_insert source cs write_ok w es :
  Forall (emitted source) cs ->
  length es = length cs -> uniform es -> well_formed (db w) ->
  exists w' out,
    insert_documents write_ok w cs es = Returned VNone w' out
    /\ has_failure out = false
    /\ chunks (db w') = chunks (db w) ++ cs
    /\ well_formed (db w').
Proof.
  intros Hc Hlen Hu Hw.
  assert (Hk : Forall has_keys cs).
  { eapply Forall_impl; [exact Hc|]. intros c H. apply (emitted_complete source c H). }
  assert (Hcc : Forall complete_chunk cs).
  { eapply Forall_impl; [exact Hc|]. intros c H. apply (emitted_complete source c H). }
  destruct (metadata_list_has_keys cs Hk) as [ms Hms].
  pose proof (insert_documents_complete write_ok w cs es ms (eq_sym Hlen) Hu Hms) as Hi.
  assert (Hs : successful w (Insert write_ok cs es) = true).
  { unfold successful. rewrite Hi. destruct write_ok; reflexivity. }
  pose proof (successful_insert_well_formed write_ok w cs es Hw Hcc Hs) as Hwf.
  rewrite Hi in Hwf. cbn [state_after] in Hwf.
  eexists _, _. split; [exact Hi|].
  split; [destruct write_ok; reflexivity|]. split; [reflexivity | exact Hwf].
Qed.

End ChunkerToStore.

(** ** Cleaning, file entry points and callers *)

Section CleaningFacts.
Import TextPipeline.
Variable isalnum : N -> bool.

Lemma write_run_length run : length (write_run run) = pending_length run.
Proof.
  destruct run as [[[] ws]|]; cbn; rewrite ?length_reverse; reflexivity.
Qed.

Lemma sub_blank_lines_length text : forall run,
  (length (sub_blank_lines run text) <= pending_length run + length text)%nat.
Proof.
  induction text as [|c rest IH]; intros run; cbn [sub_blank_lines].
  - rewrite write_run_length. lia.
  - destruct run as [[seen ws]|].
    + destruct (c =? 10)%N.
      * etransitivity; [apply IH|]. destruct seen; cbn; lia.
      * destruct (isspace c).
        -- etransitivity; [apply IH|]. destruct seen; cbn; lia.
        -- rewrite length_app, write_run_length. cbn [length].
           specialize (IH None). cbn in IH. lia.
    + destruct (c =? 10)%N.
      * etransitivity; [apply IH|]. cbn. lia.
      * cbn [length]. specialize (IH None). cbn in IH. cbn. lia.
Qed.

Lemma sub_spaces_length text : forall b,
  (length (sub_spaces b text) <= length text)%nat.
Proof.
  induction text as [|c rest IH]; intros b; cbn; [lia|].
  pose proof (IH true). pose proof (IH false).
  destruct (is_blank c); [destruct b|]; cbn; lia.
Qed.

Lemma sub_indent_length text : forall b,
  (length (sub_indent b text) <= length text)%nat.
Proof.
  induction text as [|c rest IH]; intros b; cbn; [lia|].
  pose proof (IH true). pose proof (IH (c =? 10)%N).
  destruct (b && is_blank c); cbn; lia.
Qed.

Lemma sub_blank_lines_chars (P : N -> Prop) text : forall run,
  P 10%N -> Forall P (write_run run) -> Forall P text ->
  Forall P (sub_blank_lines run text).
Proof.
  intros run H10. revert run.
  induction text as [|c rest IH]; intros run Hrun Ht; cbn [sub_blank_lines].
  - exact Hrun.
  - apply Forall_cons in Ht as [Hc Hrest].
    destruct run as [[seen ws]|].
    + destruct (c =? 10)%N.
      * apply IH; [repeat constructor; exact H10 | exact Hrest].
      * destruct (isspace c).
        -- apply IH; [|exact Hrest]. cbn [write_run] in *.
           rewrite reverse_cons, app_assoc. apply Forall_app.
           split; [exact Hrun | repeat constructor; exact Hc].
        -- apply Forall_app. split; [exact Hrun|].
           constructor; [exact Hc | apply IH; [constructor | exact Hrest]].
    + destruct (c =? 10)%N.
      * apply IH; [repeat constructor; exact H10 | exact Hrest].
      * constructor; [exact Hc | apply IH; [constructor | exact Hrest]].
Qed.

Lemma sub_spaces_chars (P : N -> Prop) text : forall b,
  P 32%N -> Forall (fun c => is_blank c = false -> P c) text ->
  Forall P (sub_spaces b text).
Proof.
  intros b H32. revert b.
  induction text as [|c rest IH]; intros b Ht; cbn; [constructor|].
  apply Forall_cons in Ht as [Hc Hrest].
  destruct (is_blank c) eqn:E; [destruct b|].
  - apply IH, Hrest.
  - constructor; [exact H32 | apply IH, Hrest].
  - constructor; [apply Hc; reflexivity | apply IH, Hrest].
Qed.

Lemma sub_indent_sublist text : forall b, sublist (sub_indent b text) text.
Proof.
  induction text as [|c rest IH]; intros b; cbn; [constructor|].
  destruct (b && is_blank c); constructor; apply IH.
Qed.

Lemma strip_sublist s : sublist (strip s) s.
Proof.
  unfold strip. destruct (rstrip_prefix (lstrip s)) as [q Hq].
  destruct (lstrip_suffix s) as [p Hp].
  rewrite Hp at 2. rewrite Hq at 2.
  apply sublist_inserts_l, sublist_inserts_r. reflexivity.
Qed.

Lemma Forall_sublist_of {A} (P : A -> Prop) (l1 l2 : list A) :
  l1 `sublist_of` l2 -> Forall P l2 -> Forall P l1.
Proof.
  intros Hs H. rewrite Forall_forall in H |- *. intros x Hx.
  apply H. eapply elem_of_sublist; eassumption.
Qed.

Lemma allowed_space c : isspace c = true -> allowed isalnum c = true.
Proof. intros H. unfold allowed. rewrite H, orb_true_r. reflexivity. Qed.

Lemma sub_artifacts_allowed text :
  Forall (fun c => allowed isalnum c = true) (sub_artifacts isalnum text).
Proof.
  unfold sub_artifacts. apply Forall_fmap, Forall_forall. intros c _. cbn.
  destruct (allowed isalnum c) eqn:E; [exact E|].
  apply allowed_space. reflexivity.
Qed.

Lemma clean_text_shape_facts text :
  len (clean_text isalnum text) <= len text
  /\ strip (clean_text isalnum text) = clean_text isalnum text
  /\ (9%N ∉ clean_text isalnum text)
  /\ Forall (fun c => allowed isalnum c = true) (clean_text isalnum text).
Proof.
  unfold clean_text. split; [|split; [|split]].
  - etransitivity; [apply strip_length|]. unfold len, sub_artifacts.
    rewrite length_map.
    pose proof (sub_indent_length
                  (sub_spaces false (sub_blank_lines None text)) false).
    pose proof (sub_spaces_length (sub_blank_lines None text) false).
    pose proof (sub_blank_lines_length text None) as H3. cbn in H3. lia.
  - apply strip_idempotent.
  - intros Hin.
    eapply elem_of_sublist in Hin; [|apply strip_sublist].
    unfold sub_artifacts in Hin. apply list_elem_of_fmap in Hin as (c & Hc & Hin).
    assert (Hc9 : c = 9%N).
    { destruct (allowed isalnum c); [congruence | discriminate]. }
    subst c.
    eapply elem_of_sublist in Hin; [|apply sub_indent_sublist].
    assert (Hno : Forall (fun c => c <> 9%N)
                    (sub_spaces false (sub_blank_lines None text))).
    { apply sub_spaces_chars; [discriminate|].
      apply Forall_forall. intros c' _ Hb ->. discriminate Hb. }
    rewrite Forall_forall in Hno. exact (Hno _ Hin eq_refl).
  - eapply Forall_sublist_of; [apply strip_sublist|].
    apply sub_artifacts_allowed.
Qed.

Lemma clean_text_blank text :
  all_space text -> clean_text isalnum text = [].
Proof.
  intros Ht. unfold clean_text. apply strip_all_space.
  unfold sub_artifacts. apply Forall_fmap, Forall_forall. intros c Hc. cbn.
  assert (Hs : isspace c = true).
  { eapply elem_of_sublist in Hc; [|apply sub_indent_sublist].
    assert (H1 : Forall (fun c => isspace c = true)
                   (sub_blank_lines None text)).
    { apply sub_blank_lines_chars; [reflexivity | constructor | exact Ht]. }
    assert (H2 : Forall (fun c => isspace c = true)
                   (sub_spaces false (sub_blank_lines None text))).
    { apply sub_spaces_chars; [reflexivity|].
      eapply Forall_impl; [exact H1|]. cbn. auto. }
    rewrite Forall_forall in H2. apply H2, Hc. }
  destruct (allowed isalnum c); [exact Hs | reflexivity].
Qed.

End CleaningFacts.

Section FileEntryPoints.
Import DocumentProcessor TextPipeline.
Variable isalnum : N -> bool.
Variable self : SimpleDocumentProcessor.

Lemma smart_chunk_text_numbered source text cs :
  smart_chunk_text self source text = OK cs -> numbered 0 cs.
Proof.
  unfold smart_chunk_text. unfold_res.
  destruct (paragraph_loop _ _ _ _) as [st|] eqn:Hl; [|discriminate].
  intros [= <-].
  eapply flush_well_numbered, paragraph_loop_well_numbered; [|exact Hl].
  split; [apply numbered_nil | reflexivity].
Qed.

Lemma chunked_guarantees source text :
  0 <= chunk_size self -> chunk_size self <> overlap self ->
  exists cs,
    smart_chunk_text self source text = OK cs
    /\ numbered 0 cs
    /\ bounded (chunk_size self + 1) cs
    /\ Forall (emitted source) cs.
Proof.
  intros Hn Hne.
  destruct (smart_chunk_text_returns self source Hne text) as [cs Hcs].
  exists cs. split; [exact Hcs|].
  split; [eapply smart_chunk_text_numbered, Hcs|].
  split; [eapply smart_chunk_text_bounded; eassumption|].
  eapply smart_chunk_text_emitted, Hcs.
Qed.

Lemma page_loop_blank pages : forall n acc,
  Forall all_space pages -> page_loop n pages acc = acc.
Proof.
  induction pages as [|p pages IH]; intros n acc Hp; cbn; [reflexivity|].
  apply Forall_cons in Hp as [Hp Hrest].
  rewrite (strip_all_space p Hp). cbn. apply IH, Hrest.
Qed.

(** [process_text_file]: an exception of the read reaches the caller; a
    file of whitespace only gives no chunk; otherwise, with
    [chunk_size >= 0] and a stride that is not zero, the call returns
    chunks numbered from 0, of at most [chunk_size + 1] characters, each
    made by [_create_chunk] for this file. *)
Theorem process_text_file_guarantees content file_path :
  (forall e, content = Raise e ->
     process_text_file isalnum self content file_path = Raise e)
  /\ (forall text, content = OK text -> all_space text ->
        process_text_file isalnum self content file_path = OK [])
  /\ (forall text, content = OK text ->
        0 <= chunk_size self -> chunk_size self <> overlap self ->
        exists cs,
          process_text_file isalnum self content file_path = OK cs
          /\ numbered 0 cs
          /\ bounded (chunk_size self + 1) cs
          /\ Forall (emitted file_path) cs).
Proof.
  split; [|split].
  - intros e ->. reflexivity.
  - intros text -> Ht. cbn. rewrite (clean_text_blank isalnum text Ht).
    apply blank_text_chunks. constructor.
  - intros text -> Hn Hne. cbn. apply chunked_guarantees; assumption.
Qed.

(** [process_pdf]: a missing file raises (FileNotFoundError); an
    exception of the reader reaches the caller; a document whose pages
    hold whitespace only gives no chunk; otherwise the guarantees are
    those of [process_text_file]. *)
Theorem process_pdf_guarantees exists_ pages file_path :
  (exists_ = false ->
     process_pdf isalnum self exists_ pages file_path = Raise OSError)
  /\ (forall e, exists_ = true -> pages = Raise e ->
        process_pdf isalnum self exists_ pages file_path = Raise e)
  /\ (forall texts, exists_ = true -> pages = OK texts ->
        Forall all_space texts ->
        process_pdf isalnum self exists_ pages file_path = OK [])
  /\ (forall texts, exists_ = true -> pages = OK texts ->
        0 <= chunk_size self -> chunk_size self <> overlap self ->
        exists cs,
          process_pdf isalnum self exists_ pages file_path = OK cs
          /\ numbered 0 cs
          /\ bounded (chunk_size self + 1) cs
          /\ Forall (emitted file_path) cs).
Proof.
  split; [|split; [|split]].
  - intros ->. reflexivity.
  - intros e -> ->. reflexivity.
  - intros texts -> -> Ht. cbn. rewrite (page_loop_blank texts 0 [] Ht).
    rewrite (clean_text_blank isalnum [] ltac:(constructor)).
    apply blank_text_chunks. constructor.
  - intros texts -> -> Hn Hne. cbn. apply chunked_guarantees; assumption.
Qed.

End FileEntryPoints.

Section Callers.
Import VectorDB Embeddings RagSystem.

Lemma kept_none a thr idxs :
  (forall i, float_le thr (item a i) = false) -> kept a thr idxs = [].
Proof.
  intros H. induction idxs as [|i idxs IH]; cbn; [reflexivity|].
  rewrite H. exact IH.
Qed.

Lemma empty_query_similarities self sims i :
  cosine_similarities self [] = OK sims ->
  item sims i = zero \/ item sims i = S754_nan.
Proof.
  unfold cosine_similarities. unfold_res.
  destruct (array2 _) as [stored|]; [|discriminate].
  intros H. apply matvec_rows in H as [-> Hlen].
  unfold item. rewrite !list_lookup_fmap.
  destruct (stored !! i) as [r|] eqn:Hr; cbn; [|right; reflexivity].
  left. rewrite Forall_fmap in Hlen. rewrite Forall_forall in Hlen.
  specialize (Hlen r (list_elem_of_lookup_2 _ _ _ Hr)). cbn in Hlen.
  rewrite length_map in Hlen. destruct r; [reflexivity | discriminate].
Qed.

Lemma search_empty_query_returns w k thr :
  float_le thr zero = false ->
  exists out, search_similar w [] k thr = Returned [] w out.
Proof.
  intros Hthr.
  destruct (search_similar_results w [] k thr)
    as (results & out & Hs & [->|(sims & Hc & Hb)]).
  { exists out. exact Hs. }
  rewrite kept_none in Hb.
  - inversion Hb. subst. exists out. exact Hs.
  - intros i. destruct (empty_query_similarities (db w) sims i Hc) as [->| ->];
      [exact Hthr | apply float_le_nan_r].
Qed.

Lemma search_similar_bounds w q k thr :
  0 <= k ->
  exists results out,
    search_similar w q k thr = Returned results w out
    /\ len results <= k
    /\ Forall (fun r => float_le thr (score r) = true) results.
Proof.
  intros Hk.
  destruct (search_similar_results w q k thr)
    as (results & out & Hs & [->|(sims & Hc & Hb)]).
  { exists [], out. split; [exact Hs|]. split; [exact Hk | constructor]. }
  exists results, out. split; [exact Hs|].
  pose proof (built_scores _ _ _ _ Hb) as Hsc. split.
  - unfold len. rewrite (Forall2_length _ _ _ Hb).
    pose proof (sublist_length _ _ (kept_sublist sims thr (top_indices sims k))).
    pose proof (top_indices_length sims k Hk). unfold len in *. lia.
  - assert (H : Forall (fun s => float_le thr s = true) (map score results)).
    { rewrite Hsc. apply Forall_fmap. exact (kept_passes sims thr _). }
    apply Forall_fmap in H. exact H.
Qed.

Lemma generate_single_failure provider text e :
  provider [text] = Raise e -> generate_single_embedding provider text = [].
Proof.
  intros H. unfold generate_single_embedding, generate_embeddings.
  rewrite H. reflexivity.
Qed.

(** [search_knowledge_base]: when the provider fails for the query, or
    gives no vector or an empty one, the result is the empty list and the
    store is not searched; in every case, for [top_k >= 0], at most
    [top_k] results come back, each with a score of at least 0.1, and the
    store is unchanged. *)
Theorem search_knowledge_base_outcomes provider w query top_k :
  (generate_single_embedding provider (VStr query) = [] ->
   search_knowledge_base provider w query top_k = Returned [] w [])
  /\ (forall e, provider [VStr query] = Raise e ->
      search_knowledge_base provider w query top_k = Returned [] w [])
  /\ (0 <= top_k ->
      exists results out,
        search_knowledge_base provider w query top_k
        = Returned results w out
        /\ len results <= top_k
        /\ Forall (fun r => float_le tenth (score r) = true) results).
Proof.
  unfold search_knowledge_base. split; [|split].
  - intros ->. reflexivity.
  - intros e He. rewrite (generate_single_failure _ _ _ He). reflexivity.
  - intros Hk. destruct (generate_single_embedding _ _) as [|x xs].
    + exists [], []. split; [reflexivity|]. split; [exact Hk | constructor].
    + apply search_similar_bounds, Hk.
Qed.

(** [RAGSystem.query]: when the provider fails for the question, or the
    store is empty, the answer is the fixed no-information sentence,
    whatever the completion service would say, and the store is
    unchanged. *)
Theorem query_no_information provider chat w question top_k :
  ((exists e, provider [VStr question] = Raise e)
   \/ embeddings (db w) = []) ->
  exists out,
    query provider chat w question top_k
    = Returned (VStr no_information) w out.
Proof.
  intros [[e He]|Hempty]; unfold query.
  - rewrite (generate_single_failure _ _ _ He).
    destruct (search_empty_query_returns w top_k tenth eq_refl) as [out ->].
    exists out. reflexivity.
  - unfold search_similar. rewrite Hempty. eexists. reflexivity.
Qed.

Lemma chunk_texts_emitted source cs :
  Forall (emitted source) cs ->
  exists texts, chunk_texts cs = OK texts /\ length texts = length cs.
Proof.
  induction 1 as [|c cs (t & i & -> & _) _ (texts & Ht & Hl)]; cbn.
  - exists []. split; reflexivity.
  - unfold getitem, DocumentProcessor._create_chunk.
    rewrite lookup_insert_eq. unfold_res. rewrite Ht.
    eexists. split; [reflexivity|]. cbn. f_equal. exact Hl.
Qed.

Lemma process_pdf_emitted isalnum self exists_ pages file_path cs :
  TextPipeline.process_pdf isalnum self exists_ pages file_path = OK cs ->
  Forall (emitted file_path) cs.
Proof.
  unfold TextPipeline.process_pdf. destruct exists_; [|discriminate].
  cbn [negb]. destruct pages as [texts|e]; [|discriminate]. cbn.
  apply smart_chunk_text_emitted.
Qed.

End Callers.

(** ** Entries on the chunker *)

Section ChunkerEntries.
Import DocumentProcessor.

(** The example calls return. *)
Lemma two_paragraphs_chunked :
  exists c,
    smart_chunk_text small_processor (lit "notes.txt") two_paragraphs
    = OK [c].
Proof.
  assert (H : match smart_chunk_text small_processor (lit "notes.txt")
                      two_paragraphs with
              | OK [_] => true
              | _ => false
              end = true) by (vm_compute; reflexivity).
  destruct (smart_chunk_text small_processor (lit "notes.txt") two_paragraphs)
    as [[|c [|c' rest]]|e]; try discriminate H.
  exists c. reflexivity.
Qed.

Lemma long_sentence_split :
  exists cs,
    _split_long_text small_processor (lit "notes.txt") long_sentence 0
    = OK cs.
Proof.
  assert (H : match _split_long_text small_processor (lit "notes.txt")
                      long_sentence 0 with
              | OK _ => true
              | Raise _ => false
              end = true) by (vm_compute; reflexivity).
  destruct (_split_long_text small_processor (lit "notes.txt") long_sentence 0)
    as [cs|e]; [|discriminate H].
  exists cs. reflexivity.
Qed.

Lemma long_sentence_chunked source :
  exists cs, smart_chunk_text small_processor source long_sentence = OK cs.
Proof.
  apply smart_chunk_text_returns. vm_compute. discriminate.
Qed.

(** Every chunk that [smart_chunk_text] returns has a [char_count] of at
    most [chunk_size + 1], for [chunk_size >= 0]. *)
Theorem chunk_sizes_within_one self source text cs :
  0 <= chunk_size self ->
  smart_chunk_text self source text = OK cs ->
  bounded (chunk_size self + 1) cs.
Proof. intros Hn H. eapply smart_chunk_text_bounded; eassumption. Qed.

Lemma chunk_sizes_within_one_witness :
  0 <= chunk_size small_processor
  /\ exists cs,
       smart_chunk_text small_processor (lit "notes.txt") two_paragraphs
       = OK cs
       /\ bounded 11 cs.
Proof.
  assert (H : 0 <= chunk_size small_processor) by (vm_compute; discriminate).
  destruct two_paragraphs_chunked as [c Hc].
  split; [exact H|]. exists [c]. split; [exact Hc|].
  exact (chunk_sizes_within_one small_processor (lit "notes.txt")
           two_paragraphs [c] H Hc).
Defined.

(** Every chunk that [_split_long_text] returns, from the sentence pass
    or from the forced windows, has a [char_count] of at most
    [chunk_size], for [chunk_size >= 0]. *)
Theorem sentence_pass_within_chunk_size self source text start cs :
  0 <= chunk_size self ->
  _split_long_text self source text start = OK cs ->
  bounded (chunk_size self) cs.
Proof. intros Hn H. eapply split_long_text_bounded; eassumption. Qed.

Lemma sentence_pass_within_chunk_size_witness :
  0 <= chunk_size small_processor
  /\ exists cs,
       _split_long_text small_processor (lit "notes.txt") long_sentence 0
       = OK cs
       /\ bounded 10 cs.
Proof.
  assert (H : 0 <= chunk_size small_processor) by (vm_compute; discriminate).
  destruct long_sentence_split as [cs Hcs].
  split; [exact H|]. exists cs. split; [exact Hcs|].
  exact (sentence_pass_within_chunk_size small_processor (lit "notes.txt")
           long_sentence 0 cs H Hcs).
Defined.

(** A text made of whitespace only, the empty text included, gives no
    chunk. *)
Theorem blank_text_no_chunks self source text :
  all_space text -> smart_chunk_text self source text = OK [].
Proof. apply blank_text_chunks. Qed.

Lemma blank_text_no_chunks_witness :
  all_space blank_text
  /\ smart_chunk_text small_processor (lit "notes.txt") blank_text = OK [].
Proof.
  assert (H : all_space blank_text) by (repeat constructor).
  split; [exact H|].
  apply (blank_text_no_chunks small_processor (lit "notes.txt") blank_text H).
Defined.

(** A text without whitespace that is longer than [chunk_size] is cut by
    forced windows only: the chunker returns what [_force_split_text]
    returns for the whole text, its exception included. *)
Theorem long_token_forced self source text :
  no_space text -> text <> [] -> chunk_size self < len text ->
  smart_chunk_text self source text = _force_split_text self source text 0.
Proof. apply long_token_forced_eq. Qed.

Lemma long_token_forced_witness :
  (no_space long_token /\ long_token <> []
   /\ chunk_size small_processor < len long_token)
  /\ smart_chunk_text small_processor (lit "notes.txt") long_token
     = _force_split_text small_processor (lit "notes.txt") long_token 0.
Proof.
  assert (H1 : no_space long_token) by (repeat constructor).
  assert (H2 : long_token <> []) by discriminate.
  assert (H3 : chunk_size small_processor < len long_token)
    by (vm_compute; reflexivity).
  split; [auto|].
  apply (long_token_forced small_processor (lit "notes.txt") long_token
           H1 H2 H3).
Defined.

Lemma long_token_window_count_witness :
  (no_space long_token /\ overlap small_processor < chunk_size small_processor
   /\ 0 < chunk_size small_processor
   /\ chunk_size small_processor < len long_token)
  /\ exists cs,
       smart_chunk_text small_processor (lit "notes.txt") long_token = OK cs
       /\ len cs = 4.
Proof.
  assert (H1 : no_space long_token) by (repeat constructor).
  assert (H2 : overlap small_processor < chunk_size small_processor)
    by (vm_compute; reflexivity).
  assert (H3 : 0 < chunk_size small_processor) by (vm_compute; reflexivity).
  assert (H4 : chunk_size small_processor < len long_token)
    by (vm_compute; reflexivity).
  split; [auto|].
  destruct (long_token_window_count small_processor (lit "notes.txt")
              long_token H1 H2 H3 H4) as (cs & Hcs & Hlen & _).
  exists cs. split; [exact Hcs|]. rewrite Hlen. reflexivity.
Defined.

Lemma short_line_one_chunk_witness :
  ((10%N ∉ short_line) /\ strip short_line <> []
   /\ len (strip short_line) < chunk_size small_processor)
  /\ smart_chunk_text small_processor (lit "notes.txt") short_line
     = OK [_create_chunk (lit "hello") 0 (lit "notes.txt")].
Proof.
  assert (H1 : 10%N ∉ short_line).
  { intros H. apply list_elem_of_In in H. cbn in H. intuition discriminate. }
  assert (H2 : strip short_line <> []) by (vm_compute; discriminate).
  assert (H3 : len (strip short_line) < chunk_size small_processor)
    by (vm_compute; reflexivity).
  split; [auto|].
  apply (short_line_one_chunk small_processor (lit "notes.txt") short_line
           H1 H2 H3).
Defined.

Lemma force_split_by_stride_witness :
  overlap small_processor < chunk_size small_processor
  /\ exists cs,
       _force_split_text small_processor (lit "notes.txt") long_sentence 0
       = OK cs
       /\ len cs <= 3.
Proof.
  assert (H : overlap small_processor < chunk_size small_processor)
    by (vm_compute; reflexivity).
  split; [exact H|].
  apply (proj2 (proj2 (force_split_by_stride small_processor
                         (lit "notes.txt") long_sentence 0)) H).
Defined.

Lemma chunk_texts_stripped_witness :
  exists cs,
    smart_chunk_text small_processor (lit "notes.txt") long_sentence = OK cs
    /\ Forall (fun c : gmap string pyval =>
                 exists s n,
                   c !! "text" = Some (VStr s) /\ s <> [] /\ strip s = s
                   /\ c !! "char_count" = Some (VInt n) /\ len s <= n
                   /\ c !! "char_start" = Some (VInt 0)
                   /\ c !! "char_end" = Some (VInt n)) cs.
Proof.
  destruct (long_sentence_chunked (lit "notes.txt")) as [cs Hcs].
  exists cs. split; [exact Hcs|].
  exact (chunk_texts_stripped small_processor (lit "notes.txt")
           long_sentence cs Hcs).
Defined.

Lemma chunk_sources_and_ids_witness :
  exists cs,
    smart_chunk_text small_processor (lit "docs/notes.txt") long_sentence
    = OK cs
    /\ Forall (fun c : gmap string pyval =>
                 c !! "source" = Some (VStr (lit "docs/notes.txt"))
                 /\ exists i,
                      c !! "chunk_number" = Some (VInt (Z.of_nat i))
                      /\ c !! "chunk_id"
                         = Some (VStr (path_stem (lit "docs/notes.txt")
                                       ++ lit "_chunk_" ++ format_nat i)))
              cs.
Proof.
  destruct (long_sentence_chunked (lit "docs/notes.txt")) as [cs Hcs].
  exists cs. split; [exact Hcs|].
  exact (chunk_sources_and_ids small_processor (lit "docs/notes.txt")
           long_sentence cs Hcs).
Defined.

End ChunkerEntries.

(** ** Entries on the store *)

Section StoreEntries.
Import VectorDB.

Lemma store_pair_well_formed : well_formed (db store_pair).
Proof.
  split; [split; reflexivity|].
  repeat constructor; try (eexists; vm_compute; reflexivity).
Qed.

Lemma store_pair_dims :
  Forall (fun v => dim v = 2%nat) (embeddings (db store_pair)).
Proof. repeat constructor. Qed.

(** A successful insertion of complete chunks keeps the store
    well-formed. *)
Theorem insert_keeps_well_formed write_ok w cs es :
  well_formed (db w) -> Forall complete_chunk cs ->
  successful w (Insert write_ok cs es) = true ->
  well_formed (db (state_after (insert_documents write_ok w cs es))).
Proof. apply successful_insert_well_formed. Qed.

Lemma insert_keeps_well_formed_witness :
  (well_formed (db store_pair) /\ Forall complete_chunk [example_chunk "c"]
   /\ successful store_pair
        (Insert true [example_chunk "c"] [[py_float 1; py_float 0]]) = true)
  /\ well_formed
       (db (state_after
              (insert_documents true store_pair [example_chunk "c"]
                 [[py_float 1; py_float 0]]))).
Proof.
  assert (H2 : Forall complete_chunk [example_chunk "c"]).
  { repeat constructor; try (eexists; vm_compute; reflexivity). }
  assert (H3 : successful store_pair
                 (Insert true [example_chunk "c"] [[py_float 1; py_float 0]])
               = true) by (vm_compute; reflexivity).
  split; [split; [exact store_pair_well_formed | split; assumption]|].
  apply (insert_keeps_well_formed true store_pair [example_chunk "c"]
           [[py_float 1; py_float 0]] store_pair_well_formed H2 H3).
Defined.

(** The chunks that the chunker returns can always be stored: with one
    vector per chunk, all of one length, the insertion succeeds, appends
    the chunks in order and keeps a well-formed store well-formed. *)
Theorem chunker_output_inserts self source text cs write_ok w es :
  DocumentProcessor.smart_chunk_text self source text = OK cs ->
  length es = length cs -> uniform es -> well_formed (db w) ->
  exists w' out,
    insert_documents write_ok w cs es = Returned VNone w' out
    /\ has_failure out = false
    /\ chunks (db w') = chunks (db w) ++ cs
    /\ well_formed (db w').
Proof.
  intros Hc. apply smart_chunk_text_emitted in Hc.
  apply emitted_chunks_insert with (source := source). exact Hc.
Qed.

Lemma chunker_output_inserts_witness :
  exists cs,
    DocumentProcessor.smart_chunk_text small_processor (lit "notes.txt")
      two_paragraphs = OK cs
    /\ length [[py_float 1; py_float 0]] = length cs
    /\ uniform [[py_float 1; py_float 0]]
    /\ well_formed (db store_pair)
    /\ exists w' out,
         insert_documents true store_pair cs [[py_float 1; py_float 0]]
         = Returned VNone w' out
         /\ has_failure out = false
         /\ chunks (db w') = chunks (db store_pair) ++ cs
         /\ well_formed (db w').
Proof.
  assert (Hu : uniform [[py_float 1; py_float 0]]).
  { intros u v Hu Hv. apply list_elem_of_singleton in Hu, Hv. subst.
    reflexivity. }
  destruct two_paragraphs_chunked as [c Hc].
  exists [c]. split; [exact Hc|]. split; [reflexivity|].
  split; [exact Hu|]. split; [exact store_pair_well_formed|].
  exact (chunker_output_inserts small_processor (lit "notes.txt")
           two_paragraphs [c] true store_pair [[py_float 1; py_float 0]]
           Hc eq_refl Hu store_pair_well_formed).
Defined.

(** A search with an empty query vector returns the empty list whatever
    the store holds, for every threshold that 0 does not reach. *)
Theorem search_empty_query w k thr :
  float_le thr zero = false ->
  exists out, search_similar w [] k thr = Returned [] w out.
Proof. apply search_empty_query_returns. Qed.

Lemma search_empty_query_witness :
  float_le tenth zero = false
  /\ exists out, search_similar store_pair [] 3 tenth
                 = Returned [] store_pair out.
Proof.
  split; [reflexivity|].
  apply (search_empty_query store_pair 3 tenth). reflexivity.
Defined.

Lemma search_positions_witness :
  exists results out,
    search_similar store_pair [py_float 1; py_float 0] 5 (py_float 0)
    = Returned results store_pair out
    /\ (results = []
        \/ exists sims idxs,
             cosine_similarities (db store_pair) [py_float 1; py_float 0]
             = OK sims
             /\ Forall2 (built (db store_pair) sims) results idxs
             /\ NoDup idxs
             /\ 0%nat ∈ idxs /\ 1%nat ∈ idxs).
Proof.
  destruct (search_positions store_pair [py_float 1; py_float 0] 5
              (py_float 0))
    as (results & out & Hs & [->|(sims & idxs & Hc & Hl & Hb & Hn & _ & Hall)]).
  { exists [], out. split; [exact Hs | left; reflexivity]. }
  exists results, out. split; [exact Hs|]. right. exists sims, idxs.
  split; [exact Hc|]. split; [exact Hb|]. split; [exact Hn|].
  assert (Hk : len sims <= 5).
  { unfold len. rewrite Hl. vm_compute. discriminate. }
  pose proof Hc as Hv. vm_compute in Hv. injection Hv as <-.
  split; apply (Hall Hk); try (vm_compute; lia); vm_compute; reflexivity.
Defined.

Lemma search_mixed_store_empty_witness :
  exists u v,
    u ∈ embeddings (db store_mixed) /\ v ∈ embeddings (db store_mixed)
    /\ dim u <> dim v
    /\ search_similar store_mixed [py_float 1; py_float 0] 3 tenth
       = Returned [] store_mixed [MsgSearchFailed ValueError_inhomogeneous].
Proof.
  exists (ndarray unit_x), (ndarray (unit_x ++ [f32_of (py_float 2)])).
  assert (H1 : ndarray unit_x ∈ embeddings (db store_mixed)) by left.
  assert (H2 : ndarray (unit_x ++ [f32_of (py_float 2)])
               ∈ embeddings (db store_mixed)) by (right; left).
  assert (H3 : dim (ndarray unit_x)
               <> dim (ndarray (unit_x ++ [f32_of (py_float 2)])))
    by (vm_compute; discriminate).
  split; [exact H1|]. split; [exact H2|]. split; [exact H3|].
  apply (search_mixed_store_empty store_mixed [py_float 1; py_float 0] 3
           tenth _ _ H1 H2 H3).
Defined.

Lemma search_wrong_dimension_empty_witness :
  (embeddings (db store_pair) <> []
   /\ Forall (fun v => dim v = 2%nat) (embeddings (db store_pair))
   /\ length [py_float 1; py_float 0; py_float 0] <> 2%nat)
  /\ search_similar store_pair [py_float 1; py_float 0; py_float 0] 3 tenth
     = Returned [] store_pair [MsgSearchFailed ValueError_not_aligned].
Proof.
  assert (H1 : embeddings (db store_pair) <> []) by discriminate.
  assert (H3 : length [py_float 1; py_float 0; py_float 0] <> 2%nat)
    by discriminate.
  split; [split; [exact H1 | split; [exact store_pair_dims | exact H3]]|].
  apply (search_wrong_dimension_empty store_pair
           [py_float 1; py_float 0; py_float 0] 3 tenth 2 H1
           store_pair_dims H3).
Defined.

Lemma search_well_formed_witness :
  (well_formed (db store_pair) /\ embeddings (db store_pair) <> []
   /\ Forall (fun v => dim v = 2%nat) (embeddings (db store_pair))
   /\ length [py_float 1; py_float 0] = 2%nat)
  /\ exists sims results,
       cosine_similarities (db store_pair) [py_float 1; py_float 0] = OK sims
       /\ search_similar store_pair [py_float 1; py_float 0] 1 tenth
          = Returned results store_pair [MsgFound (length results)]
       /\ Forall2 (built (db store_pair) sims) results
            (kept sims tenth (top_indices sims 1)).
Proof.
  assert (H1 : embeddings (db store_pair) <> []) by discriminate.
  split;
    [split; [exact store_pair_well_formed
            | split; [exact H1 | split; [exact store_pair_dims | reflexivity]]]|].
  apply (search_well_formed store_pair [py_float 1; py_float 0] 1 tenth 2
           store_pair_well_formed H1 store_pair_dims eq_refl).
Defined.

Lemma insert_save_load_round_trip_witness :
  successful store_pair
    (Insert true [example_chunk "c"] [[py_float 1; py_float 0]]) = true
  /\ exists w' w2 out,
       state_after
         (insert_documents true store_pair [example_chunk "c"]
            [[py_float 1; py_float 0]]) = w'
       /\ __init__ (storage_path (db w')) (disk w') = (w2, out)
       /\ chunks (db w2) = chunks (db w')
       /\ metadata (db w2) = metadata (db w')
       /\ map values (embeddings (db w2)) = map values (embeddings (db w'))
       /\ same_answer (get_status w2) (get_status w').
Proof.
  assert (H : successful store_pair
                (Insert true [example_chunk "c"] [[py_float 1; py_float 0]])
              = true) by (vm_compute; reflexivity).
  split; [exact H|].
  apply (insert_save_load_round_trip store_pair [example_chunk "c"]
           [[py_float 1; py_float 0]] H).
Defined.

Lemma clear_is_idempotent_witness :
  exists w',
    clear_database true store_saved = Returned VNone w' [MsgCleared]
    /\ chunks (db w') = [] /\ disk w' = None
    /\ clear_database false w' = Returned VNone w' [MsgCleared].
Proof.
  eexists. split; [reflexivity|].
  destruct (clear_is_idempotent true store_saved VNone _ [MsgCleared] eq_refl)
    as (Hc & _ & _ & Hd & Hagain & _).
  split; [exact Hc|]. split; [exact Hd | apply Hagain].
Defined.

Lemma clear_failure_keeps_snapshot_witness :
  disk store_saved
  = Some (Pickled [example_chunk "a"; example_chunk "b"]
            [pylist unit_x; pylist unit_y] [∅; ∅])
  /\ exists w',
       clear_database false store_saved = Raised OSError w' []
       /\ chunks (db w') = []
       /\ chunks (db (fst (__init__ (storage_path (db w')) (disk w'))))
          = [example_chunk "a"; example_chunk "b"].
Proof.
  split; [reflexivity|].
  destruct (clear_failure_keeps_snapshot store_saved
              [example_chunk "a"; example_chunk "b"]
              [pylist unit_x; pylist unit_y] [∅; ∅] eq_refl)
    as (w' & Hr & Hc & _ & _ & Hl & _).
  exists w'. split; [exact Hr|]. split; [exact Hc | exact Hl].
Defined.


Lemma insert_missing_key_partial_witness :
  (length [example_chunk "c"; (∅ : gmap string pyval)]
   = length [[py_float 1; py_float 0]; [py_float 0; py_float 1]]
   /\ uniform [[py_float 1; py_float 0]; [py_float 0; py_float 1]]
   /\ (∅ : gmap string pyval) ∈ [example_chunk "c"; ∅]
   /\ ~ has_keys ∅)
  /\ exists k w',
       insert_documents true store_pair [example_chunk "c"; ∅]
         [[py_float 1; py_float 0]; [py_float 0; py_float 1]]
       = Returned VNone w' [MsgInsertFailed (KeyError k)]
       /\ length (chunks (db w')) = 4%nat
       /\ length (metadata (db w')) = 2%nat
       /\ ~ parallel (db w').
Proof.
  assert (Hu : uniform [[py_float 1; py_float 0]; [py_float 0; py_float 1]]).
  { intros u v Hu Hv.
    apply elem_of_cons in Hu as [->|Hu]; apply elem_of_cons in Hv as [->|Hv];
      try apply list_elem_of_singleton in Hu;
      try apply list_elem_of_singleton in Hv; subst; reflexivity. }
  assert (Hin : (∅ : gmap string pyval) ∈ [example_chunk "c"; ∅])
    by (right; left).
  assert (Hk : ~ has_keys ∅).
  { intros [[x Hx] _]. rewrite lookup_empty in Hx. discriminate Hx. }
  split; [split; [reflexivity | split; [exact Hu | split; assumption]]|].
  destruct (insert_missing_key_partial true store_pair
              [example_chunk "c"; ∅]
              [[py_float 1; py_float 0]; [py_float 0; py_float 1]] ∅
              eq_refl Hu Hin Hk)
    as (k & w' & Hr & Hc & _ & Hm & _ & Hp).
  exists k, w'. split; [exact Hr|].
  split; [rewrite Hc; reflexivity|]. split; [rewrite Hm; reflexivity|].
  apply Hp. split; reflexivity.
Defined.

End StoreEntries.

(** ** Entries on the cleaning and the callers *)

Section CallerEntries.
Import VectorDB TextPipeline Embeddings RagSystem.

(** [clean_text] never lengthens a text; what it returns neither starts
    nor ends with whitespace, holds no tab, and holds only word
    characters, whitespace and the punctuation that the last expression
    lists. *)
Theorem clean_text_shape isalnum text :
  len (clean_text isalnum text) <= len text
  /\ strip (clean_text isalnum text) = clean_text isalnum text
  /\ (9%N ∉ clean_text isalnum text)
  /\ Forall (fun c => allowed isalnum c = true) (clean_text isalnum text).
Proof. apply clean_text_shape_facts. Qed.

Lemma process_text_file_guarantees_witness :
  (0 <= DocumentProcessor.chunk_size small_processor
   /\ DocumentProcessor.chunk_size small_processor
      <> DocumentProcessor.overlap small_processor)
  /\ exists cs,
       process_text_file ascii_isalnum small_processor (OK mixed_text)
         (lit "notes.txt") = OK cs
       /\ numbered 0 cs
       /\ bounded 11 cs.
Proof.
  assert (H1 : 0 <= DocumentProcessor.chunk_size small_processor)
    by (vm_compute; discriminate).
  assert (H2 : DocumentProcessor.chunk_size small_processor
               <> DocumentProcessor.overlap small_processor)
    by (vm_compute; discriminate).
  split; [split; assumption|].
  destruct (proj2 (proj2 (process_text_file_guarantees ascii_isalnum
                            small_processor (OK mixed_text)
                            (lit "notes.txt")))
              mixed_text eq_refl H1 H2) as (cs & Hcs & Hn & Hb & _).
  exists cs. split; [exact Hcs|]. split; [exact Hn | exact Hb].
Defined.

Lemma process_pdf_guarantees_witness :
  (0 <= DocumentProcessor.chunk_size small_processor
   /\ DocumentProcessor.chunk_size small_processor
      <> DocumentProcessor.overlap small_processor)
  /\ (exists cs,
        process_pdf ascii_isalnum small_processor true (OK two_pages)
          (lit "notes.pdf") = OK cs
        /\ numbered 0 cs
        /\ bounded 11 cs)
  /\ process_pdf ascii_isalnum small_processor false (OK two_pages)
       (lit "notes.pdf") = Raise OSError.
Proof.
  assert (H1 : 0 <= DocumentProcessor.chunk_size small_processor)
    by (vm_compute; discriminate).
  assert (H2 : DocumentProcessor.chunk_size small_processor
               <> DocumentProcessor.overlap small_processor)
    by (vm_compute; discriminate).
  split; [split; assumption|]. split.
  - destruct (proj2 (proj2 (proj2 (process_pdf_guarantees ascii_isalnum
                                     small_processor true (OK two_pages)
                                     (lit "notes.pdf"))))
                two_pages eq_refl eq_refl H1 H2) as (cs & Hcs & Hn & Hb & _).
    exists cs. split; [exact Hcs|]. split; [exact Hn | exact Hb].
  - apply (proj1 (process_pdf_guarantees ascii_isalnum small_processor false
                    (OK two_pages) (lit "notes.pdf"))).
    reflexivity.
Defined.

Lemma search_knowledge_base_outcomes_witness :
  (failing_provider [VStr (lit "what?")] = Raise OSError /\ 0 <= 3)
  /\ search_knowledge_base failing_provider store_pair (lit "what?") 3
     = Returned [] store_pair []
  /\ exists results out,
       search_knowledge_base constant_provider store_pair (lit "what?") 3
       = Returned results store_pair out
       /\ len results <= 3.
Proof.
  split; [split; [reflexivity | lia]|]. split.
  - apply (proj1 (proj2 (search_knowledge_base_outcomes failing_provider
                           store_pair (lit "what?") 3)) OSError).
    reflexivity.
  - destruct (proj2 (proj2 (search_knowledge_base_outcomes constant_provider
                              store_pair (lit "what?") 3)))
      as (results & out & Hs & Hl & _); [lia|].
    exists results, out. split; [exact Hs | exact Hl].
Defined.

Lemma query_no_information_witness :
  (exists e, failing_provider [VStr (lit "what?")] = Raise e)
  /\ exists out,
       query failing_provider echo_chat store_pair (lit "what?") 3
       = Returned (VStr no_information) store_pair out.
Proof.
  assert (H : exists e, failing_provider [VStr (lit "what?")] = Raise e)
    by (exists OSError; reflexivity).
  split; [exact H|].
  apply (query_no_information failing_provider echo_chat store_pair
           (lit "what?") 3).
  left. exact H.
Defined.

(** [add_document]: a missing file raises and leaves the store as it is.
    For the chunks [cs] of the document, the vectors are those that
    [generate_embeddings] gives for their texts: when their number is not
    the number of chunks, as when the provider fails on a document with
    chunks, the count-mismatch [ValueError] reaches the caller and the
    store is unchanged; when there is one vector per chunk, all of one
    length, the chunks are appended to a well-formed store, which stays
    well-formed. *)
Theorem add_document_outcomes isalnum provider exists_ pages write_ok w
    file_path :
  (exists_ = false ->
   add_document isalnum provider exists_ pages write_ok w file_path
   = Raised OSError w [])
  /\ (forall cs,
        process_pdf isalnum default_processor exists_ pages file_path
        = OK cs ->
        exists texts,
          chunk_texts cs = OK texts /\ length texts = length cs
          /\ (length (generate_embeddings provider texts) <> length cs ->
              add_document isalnum provider exists_ pages write_ok w
                file_path
              = Raised (ValueError_count_mismatch (length cs)
                          (length (generate_embeddings provider texts)))
                  w [])
          /\ (forall e, cs <> [] -> provider texts = Raise e ->
              add_document isalnum provider exists_ pages write_ok w
                file_path
              = Raised (ValueError_count_mismatch (length cs) 0) w [])
          /\ (length (generate_embeddings provider texts) = length cs ->
              uniform (generate_embeddings provider texts) ->
              well_formed (db w) ->
              exists w' out,
                add_document isalnum provider exists_ pages write_ok w
                  file_path = Returned VNone w' out
                /\ has_failure out = false
                /\ chunks (db w') = chunks (db w) ++ cs
                /\ well_formed (db w'))).
Proof.
  split.
  - intros ->. reflexivity.
  - intros cs Hcs. pose proof (process_pdf_emitted _ _ _ _ _ _ Hcs) as Hem.
    destruct (chunk_texts_emitted file_path cs Hem) as (texts & Ht & Hl).
    exists texts. split; [exact Ht|]. split; [exact Hl|].
    assert (Hmis : forall n,
              length (generate_embeddings provider texts) = n ->
              n <> length cs ->
              add_document isalnum provider exists_ pages write_ok w file_path
              = Raised (ValueError_count_mismatch (length cs) n) w []).
    { intros n Hn Hne. unfold add_document. rewrite Hcs, Ht.
      unfold insert_documents. rewrite Hn.
      destruct (Nat.eqb_spec (length cs) n) as [E|_]; [congruence|].
      reflexivity. }
    split; [|split].
    + intros Hne. apply Hmis; [reflexivity | exact Hne].
    + intros e Hne He. apply Hmis.
      * unfold generate_embeddings. destruct texts; [reflexivity|].
        rewrite He. reflexivity.
      * destruct cs; [contradiction | discriminate].
    + intros Hlen Hu Hw. unfold add_document. rewrite Hcs, Ht.
      eapply emitted_chunks_insert; eassumption.
Qed.

Lemma two_pages_processed :
  exists c cs,
    process_pdf ascii_isalnum default_processor true (OK two_pages)
      (lit "notes.pdf") = OK (c :: cs).
Proof.
  assert (H : match process_pdf ascii_isalnum default_processor true
                      (OK two_pages) (lit "notes.pdf") with
              | OK (_ :: _) => true
              | _ => false
              end = true) by (vm_compute; reflexivity).
  destruct (process_pdf ascii_isalnum default_processor true (OK two_pages)
              (lit "notes.pdf")) as [[|c cs]|e]; try discriminate H.
  exists c, cs. reflexivity.
Qed.

Lemma add_document_outcomes_witness :
  (exists cs,
     process_pdf ascii_isalnum default_processor true (OK two_pages)
       (lit "notes.pdf") = OK cs
     /\ cs <> []
     /\ add_document ascii_isalnum failing_provider true (OK two_pages) true
          store_pair (lit "notes.pdf")
        = Raised (ValueError_count_mismatch (length cs) 0) store_pair [])
  /\ add_document ascii_isalnum failing_provider false (OK two_pages) true
       store_pair (lit "notes.pdf")
     = Raised OSError store_pair [].
Proof.
  split.
  - destruct two_pages_processed as (c & cs & Hcs).
    assert (Hne : c :: cs <> []) by discriminate.
    exists (c :: cs). split; [exact Hcs|]. split; [exact Hne|].
    destruct (proj2 (add_document_outcomes ascii_isalnum failing_provider true
                       (OK two_pages) true store_pair (lit "notes.pdf"))
                (c :: cs) Hcs) as (texts & _ & _ & _ & Hfail & _).
    apply (Hfail OSError Hne). reflexivity.
  - apply (proj1 (add_document_outcomes ascii_isalnum failing_provider false
                    (OK two_pages) true store_pair (lit "notes.pdf"))).
    reflexivity.
Defined.

End CallerEntries.
